(** * Attendance time windows, status derivation and work hours

  A shallow embedding of the attendance logic of the two Django
  applications of the repository:

  - [EmpApps]: [emp_apps/models.py] ([AttendanceRecord],
    [AttendanceSettings]) and the [check_in], [check_out] and
    [get_attendance_status] views of [emp_apps/views.py];
  - [EmpAttd]: [emp_attd/models.py] ([Attendance]) and the [check_in]
    and [check_out] views of [emp_attd/views.py].

  The database tables are finite maps keyed by (employee, date), the
  key that [unique_together] declares; a view is a function from the
  request and the table to a response and the table afterwards. *)

From Stdlib Require Import ZArith Lia Bool List Floats.
From stdpp Require Import base option strings gmap.

Local Open Scope Z_scope.

(** ** Wall-clock values *)

Module Clock.

(** An aware [datetime] is the number of microseconds since the epoch
    (UTC), a [timedelta] a number of microseconds, a [date] a day
    number and a [time] the number of microseconds since midnight:
    Python orders [time] values by (hour, minute, second, microsecond),
    which is the order of these numbers. *)
Definition datetime := Z.
Definition timedelta := Z.
Definition date := Z.
Definition time := Z.

Definition usec_per_second : Z := 1000000.
Definition usec_per_minute : Z := 60 * usec_per_second.
Definition usec_per_hour : Z := 3600 * usec_per_second.
Definition usec_per_day : Z := 86400 * usec_per_second.

(** [time(h, m)] and [time(h, m, s)]. *)
Definition mk_time (h m : Z) : time := h * usec_per_hour + m * usec_per_minute.
Definition mk_time_s (h m s : Z) : time := mk_time h m + s * usec_per_second.

(** [dt.time()] and [dt.date()] of a datetime kept in UTC. *)
Definition time_of (dt : datetime) : time := dt mod usec_per_day.
Definition date_of (dt : datetime) : date := dt / usec_per_day.

(** [datetime.combine(d, t)]: a naive datetime, as microseconds of
    wall-clock time. *)
Definition combine (d : date) (t : time) : Z := d * usec_per_day + t.

(** [timezone.make_aware(naive)]: the instant at which the active time
    zone, [utcoffset] microseconds east of UTC, shows [naive]. *)
Definition make_aware (utcoffset : Z) (naive : Z) : datetime := naive - utcoffset.

(** [time.fromisoformat(t.strftime('%H:%M'))]: the seconds and
    microseconds of [t] are dropped. *)
Definition hhmm (t : time) : time := t - t mod usec_per_minute.

(** [timedelta(minutes=m)]. *)
Definition minutes (m : Z) : timedelta := m * usec_per_minute.

End Clock.

(** ** Python's floating-point division and [round] *)

Module PyFloat.

(** An int as a double; exact below 2^53. *)
Definition float_of_Z (z : Z) : float :=
  match z with
  | Z0 => PrimFloat.zero
  | Zpos _ => PrimFloat.of_uint63 (Uint63.of_Z z)
  | Zneg p => PrimFloat.opp (PrimFloat.of_uint63 (Uint63.of_Z (Zpos p)))
  end.

(** [td.total_seconds()]: the microseconds divided by 10**6, correctly
    rounded (durations below 2^53 microseconds, some 285 years). *)
Definition total_seconds (td : Clock.timedelta) : float :=
  PrimFloat.div (float_of_Z td) (float_of_Z Clock.usec_per_second).

(** [n / d] rounded to the nearest integer, a tie going to the even
    neighbour ([d] positive). *)
Definition round_half_even (n d : Z) : Z :=
  let q := n / d in
  let r := n mod d in
  if 2 * r <? d then q
  else if d <? 2 * r then q + 1
  else if Z.even q then q else q + 1.

(** The exact value of a finite double times [scale], as a fraction. *)
Definition scaled_fraction (scale : Z) (x : float) : option (Z * Z) :=
  match Prim2SF x with
  | S754_zero _ => Some (0, 1)
  | S754_finite s m e =>
      let v := scale * (if s then Z.neg m else Z.pos m) in
      if 0 <=? e then Some (v * 2 ^ e, 1) else Some (v, 2 ^ (- e))
  | S754_infinity _ | S754_nan => None
  end.

(** [round(x, k)] and [format(x, '.kf')] with [scale = 10**k]: CPython
    converts the double to the decimal with [k] places nearest to its
    exact binary value, an exact tie going to the even digit.  The
    result is the number of units of [1/scale]; an infinity or a NaN,
    which no finite division by a non-zero constant yields, gives 0. *)
Definition py_round (scale : Z) (x : float) : Z :=
  match scaled_fraction scale x with
  | Some (n, d) => round_half_even n d
  | None => 0
  end.

(** [n / d] rounded half-up to the nearest integer ([d] positive). *)
Definition round_half_up (n d : Z) : Z := (2 * n + d) / (2 * d).

End PyFloat.


(** ** What both applications share *)

Module Http.

(** Python's truth test on a nullable date or time column: [None] is
    false, a [datetime] is true, and so is every [time] since Python 3.5. *)
Definition truthy {A} (o : option A) : bool :=
  match o with Some _ => true | None => false end.

(** The refusals of the two views, one per [JsonResponse] with
    ['success': False]:
    - [InvalidMethod]: 'Invalid request method.'
    - [ProfileNotFound]: 'Employee profile not found.'
    - [OutOfWindow]: 'Check-in not allowed at this time. ...',
      'Check-out not allowed at this time. ...', 'Check-in is only
      allowed between 08:00 - 09:00', 'Check-out is only allowed between
      17:00 - 18:00'
    - [AlreadyCheckedIn]: 'You have already checked in today.'
    - [NoRecord]: 'No check-in record found for today.'
    - [NotCheckedIn]: 'You need to check in first.', 'You must check in
      first before checking out'
    - [AlreadyCheckedOut]: 'You have already checked out today.'
    - [TooSoon]: 'You must work at least 30 minutes before checking out.' *)
Inductive Failure :=
| InvalidMethod
| ProfileNotFound
| OutOfWindow
| AlreadyCheckedIn
| NoRecord
| NotCheckedIn
| AlreadyCheckedOut
| TooSoon.

(** What a view reads from its surroundings: the HTTP method, the row of
    [Employee.objects.get(user=request.user)] ([None] for
    [Employee.DoesNotExist]) and the clock. *)
Record Request (clock : Type) := mkRequest {
  is_post : bool;
  employee : option Z;
  today : Clock.date;
  now : clock }.

Arguments mkRequest {clock} _ _ _ _.
Arguments is_post {clock} _.
Arguments employee {clock} _.
Arguments today {clock} _.
Arguments now {clock} _.

End Http.

(** ** emp_apps

    A view also answers with a refusal when a query raises; database
    failures are outside the model, and no query of the model raises. *)

Module EmpApps.

Import Clock PyFloat Http.

(** [AttendanceRecord]; [employee] and [date] are the key of the row in
    the table, [created_at] and [updated_at] are not read by any code.
    [work_hours] holds the two-place decimal of the
    [DecimalField(decimal_places=2)] column in hundredths of an hour. *)
Record AttendanceRecord := mkAttendanceRecord {
  check_in_time : option datetime;
  check_out_time : option datetime;
  status : string;
  work_hours : option Z;
  notes : string }.

(** [AttendanceSettings]: the columns of the time rules; the grace-minute
    and overtime columns are read nowhere. *)
Record AttendanceSettings := mkAttendanceSettings {
  standard_check_in_time : time;
  standard_check_out_time : time;
  late_threshold_minutes : Z;
  check_in_start_time : time;
  check_in_end_time : time;
  check_out_start_time : time;
  check_out_end_time : time }.

(** The column defaults, the row that
    [AttendanceSettings.objects.get_or_create(pk=1)] creates. *)
Definition default_settings : AttendanceSettings :=
  {| standard_check_in_time := mk_time 9 0;
     standard_check_out_time := mk_time 17 0;
     late_threshold_minutes := 15;
     check_in_start_time := mk_time 7 0;
     check_in_end_time := mk_time 11 0;
     check_out_start_time := mk_time 15 0;
     check_out_end_time := mk_time 20 0 |}.

Abbreviation table := (gmap (Z * date) AttendanceRecord).

(** The settings with another value in [late_threshold_minutes]. *)
Definition with_late_threshold (m : Z) (s : AttendanceSettings) : AttendanceSettings :=
  {| standard_check_in_time := standard_check_in_time s;
     standard_check_out_time := standard_check_out_time s;
     late_threshold_minutes := m;
     check_in_start_time := check_in_start_time s;
     check_in_end_time := check_in_end_time s;
     check_out_start_time := check_out_start_time s;
     check_out_end_time := check_out_end_time s |}.

Definition set_check_in_time (v : option datetime) (r : AttendanceRecord) : AttendanceRecord :=
  {| check_in_time := v; check_out_time := check_out_time r;
     status := status r; work_hours := work_hours r; notes := notes r |}.

Definition set_check_out_time (v : option datetime) (r : AttendanceRecord) : AttendanceRecord :=
  {| check_in_time := check_in_time r; check_out_time := v;
     status := status r; work_hours := work_hours r; notes := notes r |}.

Definition set_status (v : string) (r : AttendanceRecord) : AttendanceRecord :=
  {| check_in_time := check_in_time r; check_out_time := check_out_time r;
     status := v; work_hours := work_hours r; notes := notes r |}.

Definition set_work_hours (v : option Z) (r : AttendanceRecord) : AttendanceRecord :=
  {| check_in_time := check_in_time r; check_out_time := check_out_time r;
     status := status r; work_hours := v; notes := notes r |}.

(** [AttendanceRecord.calculate_work_hours]: the record afterwards and
    the value returned, in hundredths. *)
Definition calculate_work_hours (r : AttendanceRecord) : AttendanceRecord * Z :=
  match check_in_time r, check_out_time r with
  | Some ci, Some co =>
      let duration := co - ci in
      let hours := PrimFloat.div (total_seconds duration) (float_of_Z 3600) in
      let rounded := py_round 100 hours in
      (set_work_hours (Some rounded) r, rounded)
  | _, _ => (r, 0)
  end.

(** [AttendanceSettings.is_check_in_allowed] and [is_check_out_allowed]. *)
Definition is_check_in_allowed (s : AttendanceSettings) (current_time : datetime) : bool :=
  let current_time_only := time_of current_time in
  (check_in_start_time s <=? current_time_only) && (current_time_only <=? check_in_end_time s).

Definition is_check_out_allowed (s : AttendanceSettings) (current_time : datetime) : bool :=
  let current_time_only := time_of current_time in
  (check_out_start_time s <=? current_time_only) && (current_time_only <=? check_out_end_time s).

(** The record that [get_or_create(..., defaults={'status': 'absent'})]
    inserts: every other column at its default. *)
Definition new_record : AttendanceRecord :=
  {| check_in_time := None; check_out_time := None;
     status := "absent"; work_hours := None; notes := "" |}.

Definition get_or_create (key : Z * date) (db : table) : AttendanceRecord * bool * table :=
  match db !! key with
  | Some r => (r, false, db)
  | None => (new_record, true, <[key := new_record]> db)
  end.

Inductive Response :=
| CheckedIn (check_in : datetime) (st : string)
| CheckedOut (check_out : datetime) (hours : Z)
| Failed (f : Failure).

Definition success (resp : Response) : bool :=
  match resp with Failed _ => false | _ => true end.

(** The minimum of the check-out view, [minimum_work_minutes = 30]. *)
Definition minimum_work_minutes : Z := 30.

Section TimeZone.

(** The offset of the active time zone (the project's [TIME_ZONE], with
    [USE_TZ] on), in microseconds east of UTC. *)
Variable utcoffset : Z.

(** [AttendanceRecord.is_late(standard_time)]; the argument is the time
    that the string parses to. *)
Definition is_late (r : AttendanceRecord) (standard_time : time) : bool :=
  match check_in_time r with
  | Some ci =>
      let standard_datetime := make_aware utcoffset (combine (date_of ci) standard_time) in
      standard_datetime <? ci
  | None => false
  end.

(** What [AttendanceRecord.save] does to the instance before the row is
    written: [is_late()] is called with its default, "09:00". *)
Definition before_save (r : AttendanceRecord) : AttendanceRecord :=
  let r1 := if truthy (check_in_time r) && truthy (check_out_time r)
            then fst (calculate_work_hours r) else r in
  if truthy (check_in_time r1) && bool_decide (status r1 = "absent")
  then (if is_late r1 (mk_time 9 0) then set_status "late" r1 else set_status "present" r1)
  else r1.

(** [AttendanceRecord.save]: the instance afterwards and the table with
    its row written.  The [work_hours] column has four digits; what the
    ORM does with 100 hours or more is not modelled. *)
Definition save (key : Z * date) (r : AttendanceRecord) (db : table) : AttendanceRecord * table :=
  let r' := before_save r in (r', <[key := r']> db).

(** The [check_in] view up to [get_or_create]: a refusal, or the
    employee and the instance fetched. *)
Definition check_in_fetch (settings : AttendanceSettings) (req : Request datetime) (db : table)
  : (Failure + (Z * date) * AttendanceRecord) * table :=
  if negb (is_post req) then (inl InvalidMethod, db) else
  match employee req with
  | None => (inl ProfileNotFound, db)
  | Some e =>
      if negb (is_check_in_allowed settings (now req)) then (inl OutOfWindow, db) else
      let '(attendance_record, _, db') := get_or_create (e, today req) db in
      (inr ((e, today req), attendance_record), db')
  end.

(** The rest of the [check_in] view, on the instance fetched.  The reply
    shows the check-in time and the status of the instance saved. *)
Definition check_in_update (settings : AttendanceSettings) (current_time : datetime)
    (key : Z * date) (attendance_record : AttendanceRecord) (db : table) : Response * table :=
  if truthy (check_in_time attendance_record) then (Failed AlreadyCheckedIn, db) else
  let r1 := set_check_in_time (Some current_time) attendance_record in
  let r2 := if is_late r1 (hhmm (standard_check_in_time settings))
            then set_status "late" r1 else set_status "present" r1 in
  let '(r3, db') := save key r2 db in
  (CheckedIn (default current_time (check_in_time r3)) (status r3), db').

Definition check_in (settings : AttendanceSettings) (req : Request datetime) (db : table)
  : Response * table :=
  match check_in_fetch settings req db with
  | (inl f, db') => (Failed f, db')
  | (inr (key, attendance_record), db') =>
      check_in_update settings (now req) key attendance_record db'
  end.

(** The [check_out] view.  [time_since_checkin.total_seconds() < 30 * 60]
    is decided on the microseconds: 1800 is a double and the quotient by
    10**6 is rounded to the nearest double, so the comparison of the
    doubles is the comparison of the integers. *)
Definition check_out (settings : AttendanceSettings) (req : Request datetime) (db : table)
  : Response * table :=
  if negb (is_post req) then (Failed InvalidMethod, db) else
  match employee req with
  | None => (Failed ProfileNotFound, db)
  | Some e =>
      let current_time := now req in
      if negb (is_check_out_allowed settings current_time) then (Failed OutOfWindow, db) else
      match db !! (e, today req) with
      | None => (Failed NoRecord, db)
      | Some attendance_record =>
          match check_in_time attendance_record with
          | None => (Failed NotCheckedIn, db)
          | Some ci =>
              if truthy (check_out_time attendance_record) then (Failed AlreadyCheckedOut, db) else
              let time_since_checkin := current_time - ci in
              if time_since_checkin <? minimum_work_minutes * 60 * usec_per_second
              then (Failed TooSoon, db) else
              let r1 := set_check_out_time (Some current_time) attendance_record in
              let '(r2, hours) := calculate_work_hours r1 in
              let '(r3, db') := save (e, today req) r2 db in
              (CheckedOut current_time hours, db')
          end
      end
  end.

End TimeZone.

(** The two flags of [get_attendance_status], for the row of the day
    ([None] for [AttendanceRecord.DoesNotExist]). *)
Definition can_check_in (settings : AttendanceSettings) (row : option AttendanceRecord)
    (current_time : datetime) : bool :=
  match row with
  | Some attendance_record =>
      is_check_in_allowed settings current_time && negb (truthy (check_in_time attendance_record))
  | None => is_check_in_allowed settings current_time
  end.

Definition can_check_out (settings : AttendanceSettings) (row : option AttendanceRecord)
    (current_time : datetime) : bool :=
  match row with
  | Some attendance_record =>
      is_check_out_allowed settings current_time
      && truthy (check_in_time attendance_record)
      && negb (truthy (check_out_time attendance_record))
  | None => false
  end.

End EmpApps.

(** ** emp_attd *)

Module EmpAttd.

Import Clock PyFloat Http.

(** [Attendance]: the times are [TimeField]s, times of day in the local
    time zone; [employee] and [date] are the key of the row. *)
Record Attendance := mkAttendance {
  check_in_time : option time;
  check_out_time : option time;
  status : string;
  is_late : bool;
  notes : option string }.

Abbreviation table := (gmap (Z * date) Attendance).

(** The properties [Attendance.can_check_in] and [can_check_out]; [now]
    is [timezone.localtime().time()]. *)
Definition can_check_in (r : Attendance) (now : time) : bool :=
  ((mk_time 8 0 <=? now) && (now <=? mk_time 9 0)) && negb (truthy (check_in_time r)).

Definition can_check_out (r : Attendance) (now : time) : bool :=
  ((mk_time 17 0 <=? now) && (now <=? mk_time 18 0))
  && truthy (check_in_time r) && negb (truthy (check_out_time r)).

Definition get_or_create (key : Z * date) (defaults : Attendance) (db : table)
  : Attendance * bool * table :=
  match db !! key with
  | Some r => (r, false, db)
  | None => (defaults, true, <[key := defaults]> db)
  end.

(** A reply: [CheckedIn l] carries ['status': 'late'] when [l] and
    ['status': 'on_time'] otherwise; [CheckedOut d] carries the work
    duration that the format ['.1f'] prints, in tenths of an hour. *)
Inductive Response :=
| CheckedIn (late : bool)
| CheckedOut (work_duration : Z)
| Failed (f : Failure).

Definition success (resp : Response) : bool :=
  match resp with Failed _ => false | _ => true end.

(** The [check_in] view. *)
Definition check_in (req : Request time) (db : table) : Response * table :=
  if negb (is_post req) then (Failed InvalidMethod, db) else
  match employee req with
  | None => (Failed ProfileNotFound, db)
  | Some e =>
      let now_time := now req in
      if negb ((mk_time 8 0 <=? now_time) && (now_time <=? mk_time 9 0))
      then (Failed OutOfWindow, db) else
      let defaults :=
        {| check_in_time := Some now_time;
           check_out_time := None;
           status := if mk_time 9 15 <? now_time then "late" else "present";
           is_late := mk_time 9 15 <? now_time;
           notes := None |} in
      let '(attendance, created, db1) := get_or_create (e, today req) defaults db in
      if negb created && truthy (check_in_time attendance)
      then (Failed AlreadyCheckedIn, db1) else
      let '(attendance', db2) :=
        if negb (truthy (check_in_time attendance)) then
          let a :=
            {| check_in_time := Some now_time;
               check_out_time := check_out_time attendance;
               status := if mk_time 9 15 <? now_time then "late" else "present";
               is_late := mk_time 9 15 <? now_time;
               notes := notes attendance |} in
          (a, <[(e, today req) := a]> db1)
        else (attendance, db1) in
      (CheckedIn (is_late attendance'), db2)
  end.

(** The [check_out] view. *)
Definition check_out (req : Request time) (db : table) : Response * table :=
  if negb (is_post req) then (Failed InvalidMethod, db) else
  match employee req with
  | None => (Failed ProfileNotFound, db)
  | Some e =>
      let now_time := now req in
      if negb ((mk_time 17 0 <=? now_time) && (now_time <=? mk_time 18 0))
      then (Failed OutOfWindow, db) else
      match db !! (e, today req) with
      | None => (Failed NoRecord, db)
      | Some attendance =>
          match check_in_time attendance with
          | None => (Failed NotCheckedIn, db)
          | Some ci =>
              if truthy (check_out_time attendance) then (Failed AlreadyCheckedOut, db) else
              let a :=
                {| check_in_time := check_in_time attendance;
                   check_out_time := Some now_time;
                   status := status attendance;
                   is_late := is_late attendance;
                   notes := notes attendance |} in
              let work_duration :=
                PrimFloat.div
                  (total_seconds (combine (today req) now_time - combine (today req) ci))
                  (float_of_Z 3600) in
              (CheckedOut (py_round 10 work_duration), <[(e, today req) := a]> db)
          end
      end
  end.

End EmpAttd.

(** ** Two check-in requests of emp_apps served at once

    Each worker runs the view on its own; a query of the ORM
    ([get_or_create], [save]) is one step on the table, which the view
    wraps in no transaction and no lock.  Between its two queries a
    worker holds the instance it fetched. *)

Module Race.

Import Clock Http EmpApps.

Inductive Handler :=
| Received (req : Request datetime)
| Fetched (current_time : datetime) (key : Z * date) (attendance_record : AttendanceRecord)
| Replied (resp : Response).

Definition step (utcoffset : Z) (settings : AttendanceSettings) (h : Handler) (db : table)
  : Handler * table :=
  match h with
  | Received req =>
      match check_in_fetch settings req db with
      | (inl f, db') => (Replied (Failed f), db')
      | (inr (key, attendance_record), db') => (Fetched (now req) key attendance_record, db')
      end
  | Fetched current_time key attendance_record =>
      let '(resp, db') := check_in_update utcoffset settings current_time key attendance_record db in
      (Replied resp, db')
  | Replied resp => (Replied resp, db)
  end.

Inductive Worker := First | Second.

(** The two workers under a schedule: who takes the next step. *)
Fixpoint run (utcoffset : Z) (settings : AttendanceSettings) (schedule : list Worker)
    (h1 h2 : Handler) (db : table) : Handler * Handler * table :=
  match schedule with
  | [] => (h1, h2, db)
  | First :: rest =>
      let '(h1', db') := step utcoffset settings h1 db in
      run utcoffset settings rest h1' h2 db'
  | Second :: rest =>
      let '(h2', db') := step utcoffset settings h2 db in
      run utcoffset settings rest h1 h2' db'
  end.

Definition succeeded (h : Handler) : bool :=
  match h with Replied resp => success resp | _ => false end.

Definition finished (h : Handler) : bool :=
  match h with Replied _ => true | _ => false end.

(** Two check-in requests of one employee on one day, both inside the
    window, on a table with no check-in time for that day. *)
Definition racing (settings : AttendanceSettings) (req1 req2 : Request datetime)
    (db : table) (e : Z) : Prop :=
  is_post req1 = true /\ employee req1 = Some e /\
  is_check_in_allowed settings (now req1) = true /\
  is_post req2 = true /\ employee req2 = Some e /\
  is_check_in_allowed settings (now req2) = true /\
  today req2 = today req1 /\
  db !! (e, today req1) ≫= check_in_time = None.

(** One worker is through before the other starts. *)
Definition serial (schedule : list Worker) : Prop :=
  schedule = [First; First; Second; Second] \/ schedule = [Second; Second; First; First].

Definition exactly_one_succeeds (h1 h2 : Handler) : Prop :=
  (succeeded h1 = true /\ h2 = Replied (Failed AlreadyCheckedIn)) \/
  (h1 = Replied (Failed AlreadyCheckedIn) /\ succeeded h2 = true).

(** The sentence of the specification: however the two requests are
    scheduled, one succeeds and the other is told [AlreadyCheckedIn]. *)
Definition one_winner (utcoffset : Z) (settings : AttendanceSettings) : Prop :=
  forall (req1 req2 : Request datetime) (db : table) (e : Z) (schedule : list Worker)
         (h1 h2 : Handler) (db' : table),
    racing settings req1 req2 db e ->
    run utcoffset settings schedule (Received req1) (Received req2) db = (h1, h2, db') ->
    finished h1 = true -> finished h2 = true ->
    exactly_one_succeeds h1 h2.

(** A worker that has not answered and holds no stale check-in time. *)
Definition pending (req : Request datetime) (key : Z * date) (h : Handler) : Prop :=
  h = Received req \/
  exists r, h = Fetched (now req) key r /\ check_in_time r = None.

End Race.

(** ** What the specification says, in its own words *)

Module Spec.

Import Clock PyFloat.

(** "Full timestamp subtraction in seconds, divided by 3600, rounded
    half-up to 2 decimal places", in hundredths of an hour: the
    difference is [co - ci] microseconds. *)
Definition work_hours_half_up (ci co : datetime) : Z :=
  round_half_up (100 * (co - ci)) (3600 * usec_per_second).

(** "[late] if check-in-time exceeds standard check-in time by more than
    the threshold, otherwise [present]", on the time of day. *)
Definition late_by_threshold (standard : time) (threshold_minutes : Z) (ci : datetime) : bool :=
  standard + minutes threshold_minutes <? time_of ci.

End Spec.

(** ** The tables that the views of emp_apps build *)

Module Reach.

Import Clock Http EmpApps.

(** From the empty table, by check-in and check-out requests and by
    saving a row again. *)
Inductive reachable (utcoffset : Z) (settings : AttendanceSettings) : table -> Prop :=
| reach_empty : reachable utcoffset settings ∅
| reach_check_in req db :
    reachable utcoffset settings db ->
    reachable utcoffset settings (snd (check_in utcoffset settings req db))
| reach_check_out req db :
    reachable utcoffset settings db ->
    reachable utcoffset settings (snd (check_out utcoffset settings req db))
| reach_save key r db :
    reachable utcoffset settings db ->
    db !! key = Some r ->
    reachable utcoffset settings (snd (save utcoffset key r db)).

(** The hours that [calculate_work_hours] leaves for a pair of stamps. *)
Definition hours_between (ci co : datetime) : float :=
  PrimFloat.div (PyFloat.total_seconds (co - ci)) (PyFloat.float_of_Z 3600).

(** The work hours agree with the two stamps. *)
Definition work_hours_agree (r : AttendanceRecord) : Prop :=
  work_hours r =
    match check_in_time r, check_out_time r with
    | Some ci, Some co => Some (PyFloat.py_round 100 (hours_between ci co))
    | _, _ => None
    end.

(** The rows of a table keep the status they have, when it is not
    'absent' ([keep] selects the rows looked at). *)
Definition status_kept (keep : AttendanceRecord -> Prop) (db db' : table) : Prop :=
  forall key r, db !! key = Some r -> keep r -> status r <> "absent" ->
    exists r', db' !! key = Some r' /\ status r' = status r.

(** The sentence of the specification on the value of the work hours:
    every row with both stamps holds their difference in hours, rounded
    half-up to two places. *)
Definition work_hours_rounded_half_up (utcoffset : Z) (settings : AttendanceSettings) : Prop :=
  forall (db : table) (key : Z * date) (r : AttendanceRecord) (ci co : datetime),
    reachable utcoffset settings db ->
    db !! key = Some r ->
    check_in_time r = Some ci ->
    check_out_time r = Some co ->
    work_hours r = Some (Spec.work_hours_half_up ci co).

End Reach.

(** ** The other views of emp_apps *)

Module Site.

Import Clock PyFloat Http EmpApps.

(** [attendance_dashboard]: the record of the day shown, fetched with
    [get_or_create(..., defaults={'status': 'absent'})], under any HTTP
    method; [None] is the redirect of a user without a profile. *)
Definition attendance_dashboard (req : Request datetime) (db : table)
  : option AttendanceRecord * table :=
  match employee req with
  | None => (None, db)
  | Some e =>
      let '(today_record, _, db') := get_or_create (e, today req) db in
      (Some today_record, db')
  end.

(** The tables that the dashboard and the two views build from nothing,
    rows being saved again at will. *)
Inductive reachable (utcoffset : Z) (settings : AttendanceSettings) : table -> Prop :=
| reach_empty : reachable utcoffset settings ∅
| reach_dashboard req db :
    reachable utcoffset settings db ->
    reachable utcoffset settings (snd (attendance_dashboard req db))
| reach_check_in req db :
    reachable utcoffset settings db ->
    reachable utcoffset settings (snd (check_in utcoffset settings req db))
| reach_check_out req db :
    reachable utcoffset settings db ->
    reachable utcoffset settings (snd (check_out utcoffset settings req db))
| reach_save key r db :
    reachable utcoffset settings db ->
    db !! key = Some r ->
    reachable utcoffset settings (snd (save utcoffset key r db)).

(** The status that the check-in view gives a check-in at [ci]. *)
Definition status_at (utcoffset : Z) (settings : AttendanceSettings) (ci : datetime) : string :=
  if hhmm (standard_check_in_time settings) - utcoffset <? time_of ci
  then "late" else "present".

(** A row as the views leave it. *)
Definition well_formed (utcoffset : Z) (settings : AttendanceSettings)
    (r : AttendanceRecord) : Prop :=
  match check_in_time r with
  | None => status r = "absent" /\ check_out_time r = None
  | Some ci =>
      status r = status_at utcoffset settings ci /\
      match check_out_time r with
      | None => True
      | Some co => minutes minimum_work_minutes <= co - ci
      end
  end.

(** The queryset [AttendanceRecord.objects.filter(employee=employee,
    date__range=[start_date, end_date])]. *)
Definition in_range (e : Z) (start_date end_date : date) (db : table) : table :=
  filter (λ kv, kv.1.1 = e /\ start_date <= kv.1.2 <= end_date) db.

(** [queryset.filter(status__in=sts).count()]. *)
Definition count_status (sts : list string) (records : table) : Z :=
  Z.of_nat (size (filter (λ kv, status kv.2 ∈ sts) records)).

(** The statistics of [attendance_history]; [total_work_hours] sums
    [r.work_hours or 0], in hundredths. *)
Record Statistics := mkStatistics {
  total_days : Z;
  present_days : Z;
  late_days : Z;
  absent_days : Z;
  total_work_hours : Z }.

Definition attendance_history (e : Z) (start_date end_date : date) (db : table) : Statistics :=
  let attendance_records := in_range e start_date end_date db in
  {| total_days := (end_date - start_date) + 1;
     present_days := count_status ["present"; "late"] attendance_records;
     late_days := count_status ["late"] attendance_records;
     absent_days := count_status ["absent"] attendance_records;
     total_work_hours :=
       map_fold (λ _ r acc, acc + default 0 (work_hours r)) 0 attendance_records |}.

(** A calendar date as [employee_profile] reads it. *)
Record ymd := mkYmd { year : Z; month : Z; day : Z }.

(** The years of service of [employee_profile]. *)
Definition years_of_service (today hire_date : ymd) : Z :=
  let years_of_service := year today - year hire_date in
  if (month today <? month hire_date)
     || ((month today =? month hire_date) && (day today <? day hire_date))
  then years_of_service - 1 else years_of_service.

(** The order of calendar dates, and a date some years on. *)
Definition ymd_le (a b : ymd) : Prop :=
  year a < year b \/
  (year a = year b /\ (month a < month b \/ (month a = month b /\ day a <= day b))).

Definition add_years (n : Z) (d : ymd) : ymd :=
  {| year := year d + n; month := month d; day := day d |}.

(** [LeaveRequest]: the columns that the views write. *)
Record LeaveRequest := mkLeaveRequest {
  leave_employee : Z;
  leave_type : string;
  start_date : date;
  end_date : date;
  reason : string;
  leave_status : string;
  approved_by : option Z;
  approved_date : option datetime;
  admin_comments : string }.

(** The property [LeaveRequest.duration_days]. *)
Definition duration_days (l : LeaveRequest) : Z := (end_date l - start_date l) + 1.

(** The reply of [admin_update_leave_status]: the redirect to the admin
    login, the action named in the message, or the error that the view
    catches. *)
Inductive LeaveReply :=
| LeaveLogin
| LeaveUpdated (action : string)
| LeaveError
| LeaveInvalidMethod.

(** [admin_update_leave_status] on the decoded body.  [staff] is the test
    of [@staff_member_required], an active user with [is_staff]: without
    it the view body does not run.  [get_object_or_404] raises for a
    missing id, inside the [try] of the view. *)
Definition admin_update_leave_status (staff is_post : bool) (user : Z)
    (current_time : datetime) (leave_id : Z) (st comments : string)
    (leaves : gmap Z LeaveRequest)
  : LeaveReply * gmap Z LeaveRequest :=
  if negb staff then (LeaveLogin, leaves) else
  if negb is_post then (LeaveInvalidMethod, leaves) else
  match leaves !! leave_id with
  | None => (LeaveError, leaves)
  | Some leave_request =>
      let leave_request' :=
        {| leave_employee := leave_employee leave_request;
           leave_type := leave_type leave_request;
           start_date := start_date leave_request;
           end_date := end_date leave_request;
           reason := reason leave_request;
           leave_status := st;
           approved_by := Some user;
           approved_date := Some current_time;
           admin_comments := comments |} in
      let action := if bool_decide (st = "approved") then "approved" else "rejected" in
      (LeaveUpdated action, <[leave_id := leave_request']> leaves)
  end.

End Site.

(** ** The record generator of emp_apps *)

Module Generator.

Import Clock PyFloat Http EmpApps.

(** [d.weekday()]: Monday is 0; day 0 is a Thursday. *)
Definition weekday (d : date) : Z := (d + 3) mod 7.

(** The first components of [ATTENDANCE_STATUS]. *)
Definition ATTENDANCE_STATUS : list string := ["present"; "absent"; "late"; "half_day"].

(** What [generate_attendance_record] draws: [random.random()], and the
    value of each [random.randint]. *)
Record Draw := mkDraw {
  rand : float;
  late_minutes : Z;
  check_in_minutes : Z;
  check_out_minutes : Z }.

(** The ranges of the draws; the check-out minutes are drawn from 0 to
    90 for a late record and from 0 to 60 for a present one, the wider
    range is kept here. *)
Definition in_ranges (w : Draw) : Prop :=
  15 <= late_minutes w <= 90 /\
  -15 <= check_in_minutes w <= 15 /\
  0 <= check_out_minutes w <= 90.

(** [AttendanceRecord(employee=..., date=..., status=st)]. *)
Definition blank (st : string) : AttendanceRecord :=
  {| check_in_time := None; check_out_time := None;
     status := st; work_hours := None; notes := "" |}.

(** A record with both stamps, [m_in] minutes after 09:00 and [m_out]
    minutes after 17:00 on the wall clock of the active time zone. *)
Definition stamped (utcoffset : Z) (current_date : date) (m_in m_out : Z) (st : string)
  : AttendanceRecord :=
  let check_in_time :=
    make_aware utcoffset (combine current_date (mk_time 9 0) + minutes m_in) in
  let check_out_time :=
    make_aware utcoffset (combine current_date (mk_time 17 0) + minutes m_out) in
  let work_duration := check_out_time - check_in_time in
  let work_hours := PrimFloat.div (total_seconds work_duration) (float_of_Z 3600) in
  {| EmpApps.check_in_time := Some check_in_time;
     EmpApps.check_out_time := Some check_out_time;
     status := st;
     EmpApps.work_hours := Some (py_round 100 work_hours);
     notes := "" |}.

(** The doubles that the literals [0.05] and [0.15] denote. *)
Definition five_percent : float := 0x1.999999999999ap-5%float.
Definition fifteen_percent : float := 0x1.3333333333333p-3%float.

(** [Command.generate_attendance_record]. *)
Definition generate_attendance_record (utcoffset : Z) (current_date : date) (w : Draw)
  : AttendanceRecord :=
  if 5 <=? weekday current_date then blank "holiday"
  else if PrimFloat.ltb (rand w) five_percent then blank "absent"
  else if PrimFloat.ltb (rand w) fifteen_percent then
    stamped utcoffset current_date (late_minutes w) (check_out_minutes w) "late"
  else
    stamped utcoffset current_date (check_in_minutes w) (check_out_minutes w) "present".

End Generator.

(** ** The dashboards of emp_attd *)

Module Dashboards.

Import Clock Http EmpAttd.

(** The columns of [Employee] that the dashboards read; the key of the
    table is the primary key that [Attendance.employee] refers to. *)
Record Employee := mkEmployee {
  role : string;
  department : string;
  is_active : bool }.

(** The attendance counts of [hr_dashboard]. *)
Record Counts := mkCounts {
  present_count : Z;
  late_count : Z;
  absent_count : Z }.

Definition hr_counts (employees : gmap Z Employee) (today : date) (db : table) : Counts :=
  let today_attendance := filter (λ kv, kv.1.2 = today) db in
  let present_count :=
    Z.of_nat (size (filter (λ kv, status kv.2 ∈ ["present"; "late"]) today_attendance)) in
  let late_count :=
    Z.of_nat (size (filter (λ kv, is_late kv.2 = true) today_attendance)) in
  {| present_count := present_count;
     late_count := late_count;
     absent_count := Z.of_nat (size employees) - present_count |}.

(** Every attendance row belongs to an employee: the foreign key. *)
Definition references (employees : gmap Z Employee) (db : table) : Prop :=
  forall (key : Z * date) (r : Attendance), db !! key = Some r -> is_Some (employees !! key.1).

End Dashboards.

(** ** The tables that the views of emp_attd build *)

Module Attd.

Import Clock Http EmpAttd.

Inductive reachable : table -> Prop :=
| reach_empty : reachable ∅
| reach_check_in req db :
    reachable db -> reachable (snd (check_in req db))
| reach_check_out req db :
    reachable db -> reachable (snd (check_out req db)).

(** A row as the two views leave it. *)
Definition well_formed (r : Attendance) : Prop :=
  (exists ci, check_in_time r = Some ci /\ mk_time 8 0 <= ci <= mk_time 9 0) /\
  status r = "present" /\
  is_late r = false /\
  forall co, check_out_time r = Some co -> mk_time 17 0 <= co <= mk_time 18 0.

(** The sentence of the specification on the minimum work duration,
    read on the check-out view of emp_attd: on a row checked in and not
    checked out, a check-out inside the window and less than 30 minutes
    after the check-in is refused with [TooSoon] and changes nothing. *)
Definition too_soon_refused : Prop :=
  forall (req : Request time) (db : table) (e : Z) (r : Attendance) (ci : time),
    is_post req = true ->
    employee req = Some e ->
    db !! (e, today req) = Some r ->
    check_in_time r = Some ci ->
    check_out_time r = None ->
    mk_time 17 0 <= now req <= mk_time 18 0 ->
    now req - ci < minutes 30 ->
    check_out req db = (Failed TooSoon, db).

End Attd.

(** ** Whole-minute durations *)

Module Exhaust.

Import Clock PyFloat.

(** The hundredths stored for [s] whole seconds are within half a
    hundredth of [s / 36]. *)
Definition nearest_hundredth (s : Z) : bool :=
  let hours := PrimFloat.div (total_seconds (s * usec_per_second)) (float_of_Z 3600) in
  Z.abs (36 * py_round 100 hours - s) <=? 18.

(** [p] on the [2 ^ depth] integers from [lo] on. *)
Fixpoint all_from (depth : nat) (lo : Z) (p : Z -> bool) : bool :=
  match depth with
  | O => p lo
  | S d => all_from d lo p && all_from d (lo + 2 ^ Z.of_nat d) p
  end.

End Exhaust.

(** ** Concrete requests and rows *)

Module Sample.

Import Clock Http.

(** 1 January 2024, and a moment of that day (UTC). *)
Definition day : date := 19723.
Definition at_time (h m s : Z) : datetime := combine day (mk_time_s h m s).

(** A POST of employee 1 at that moment, for emp_apps; at that local
    time of day, for emp_attd. *)
Definition post (h m s : Z) : Request datetime :=
  mkRequest true (Some 1) day (at_time h m s).
Definition post_local (h m s : Z) : Request time :=
  mkRequest true (Some 1) day (mk_time_s h m s).

(** A row of emp_apps checked in at the moment given, not checked out. *)
Definition checked_in (h m s : Z) (st : string) : EmpApps.AttendanceRecord :=
  EmpApps.mkAttendanceRecord (Some (at_time h m s)) None st None "".

(** A row of emp_apps that an administrator marked, without stamps. *)
Definition marked (st : string) : EmpApps.AttendanceRecord :=
  EmpApps.mkAttendanceRecord None None st None "".

(** A row of emp_attd checked in at the local time given. *)
Definition checked_in_local (h m s : Z) : EmpAttd.Attendance :=
  EmpAttd.mkAttendance (Some (mk_time_s h m s)) None "present" false None.

End Sample.

(** * Properties *)

Import Clock Http.

(** ** Records and [save] of emp_apps *)

Lemma calculate_work_hours_fields r :
  let r' := fst (EmpApps.calculate_work_hours r) in
  EmpApps.check_in_time r' = EmpApps.check_in_time r /\
  EmpApps.check_out_time r' = EmpApps.check_out_time r /\
  EmpApps.status r' = EmpApps.status r /\
  EmpApps.notes r' = EmpApps.notes r.
Proof.
  unfold EmpApps.calculate_work_hours.
  destruct (EmpApps.check_in_time r) eqn:Hci, (EmpApps.check_out_time r) eqn:Hco;
    simpl; auto.
Qed.

Lemma before_save_stamps utcoffset r :
  EmpApps.check_in_time (EmpApps.before_save utcoffset r) = EmpApps.check_in_time r /\
  EmpApps.check_out_time (EmpApps.before_save utcoffset r) = EmpApps.check_out_time r.
Proof.
  unfold EmpApps.before_save.
  destruct (calculate_work_hours_fields r) as (Hci & Hco & _).
  destruct (truthy (EmpApps.check_in_time r) && truthy (EmpApps.check_out_time r));
    (destruct (_ && _); [destruct (EmpApps.is_late _ _ _)|]); simpl; auto.
Qed.

Lemma before_save_status utcoffset r :
  EmpApps.status r <> "absent" ->
  EmpApps.status (EmpApps.before_save utcoffset r) = EmpApps.status r.
Proof.
  intros Hst. unfold EmpApps.before_save.
  destruct (calculate_work_hours_fields r) as (_ & _ & Hs & _).
  destruct (truthy (EmpApps.check_in_time r) && truthy (EmpApps.check_out_time r)).
  - rewrite (bool_decide_eq_false_2 (EmpApps.status _ = "absent")) by congruence.
    rewrite andb_false_r. done.
  - rewrite (bool_decide_eq_false_2 (EmpApps.status _ = "absent")) by congruence.
    rewrite andb_false_r. done.
Qed.

Lemma truthy_true {A} (o : option A) : truthy o = true <-> is_Some o.
Proof. destruct o; simpl; split; intros H; done. Qed.

Lemma truthy_false {A} (o : option A) : truthy o = false <-> o = None.
Proof. destruct o; simpl; split; intros H; done. Qed.

(** ** Check-out refusals *)

(** C3, as the code has it. In emp_apps, for every row with a check-in
    time and no check-out time, a check-out inside the check-out window
    and less than 30 minutes after the check-in is refused with
    [TooSoon], and the table, hence the absent check-out time of the row,
    stays as it was.  emp_attd has no minimum work duration: there a
    check-out inside the window on such a row succeeds and sets the
    check-out time, however short the time since the check-in. *)
Theorem check_out_too_soon (utcoffset : Z) (settings : EmpApps.AttendanceSettings)
    (req : Request datetime) (db : EmpApps.table) (e : Z)
    (r : EmpApps.AttendanceRecord) (ci : datetime)
    (req' : Request time) (db' : EmpAttd.table) (e' : Z)
    (r' : EmpAttd.Attendance) (ci' : time) :
  is_post req = true ->
  employee req = Some e ->
  db !! (e, today req) = Some r ->
  EmpApps.check_in_time r = Some ci ->
  EmpApps.check_out_time r = None ->
  EmpApps.is_check_out_allowed settings (now req) = true ->
  now req - ci < minutes 30 ->
  is_post req' = true ->
  employee req' = Some e' ->
  db' !! (e', today req') = Some r' ->
  EmpAttd.check_in_time r' = Some ci' ->
  EmpAttd.check_out_time r' = None ->
  mk_time 17 0 <= now req' <= mk_time 18 0 ->
  EmpApps.check_out utcoffset settings req db = (EmpApps.Failed TooSoon, db) /\
  EmpAttd.success (fst (EmpAttd.check_out req' db')) = true /\
  exists r'', snd (EmpAttd.check_out req' db') !! (e', today req') = Some r'' /\
    EmpAttd.check_in_time r'' = Some ci' /\
    EmpAttd.check_out_time r'' = Some (now req').
Proof.
  intros Hpost He Hrow Hci Hco Hwin Hsoon Hpost' He' Hrow' Hci' Hco' [H17 H18]. split.
  - unfold EmpApps.check_out.
    rewrite Hpost, He, Hwin, Hrow, Hci, Hco. simpl.
    assert (Hlt : (now req - ci <? EmpApps.minimum_work_minutes * 60 * usec_per_second) = true).
    { apply Z.ltb_lt. unfold minutes, usec_per_minute, EmpApps.minimum_work_minutes in *. lia. }
    rewrite Hlt. reflexivity.
  - apply Z.leb_le in H17, H18. unfold EmpAttd.check_out.
    rewrite Hpost', He'. simpl. rewrite H17, H18. simpl.
    rewrite Hrow', Hci', Hco'. simpl. split; [reflexivity|].
    eexists. rewrite lookup_insert_eq. split; [reflexivity|]. simpl.
    split; reflexivity.
Qed.

Lemma check_out_too_soon_witness :
  EmpApps.check_out 0 EmpApps.default_settings (Sample.post 17 5 0)
    {[ (1, Sample.day) := Sample.checked_in 17 0 0 "present" ]}
  = (EmpApps.Failed TooSoon, {[ (1, Sample.day) := Sample.checked_in 17 0 0 "present" ]}) /\
  EmpAttd.success
    (fst (EmpAttd.check_out (Sample.post_local 17 5 0)
            {[ (1, Sample.day) := Sample.checked_in_local 17 0 0 ]})) = true /\
  exists r'',
    snd (EmpAttd.check_out (Sample.post_local 17 5 0)
           {[ (1, Sample.day) := Sample.checked_in_local 17 0 0 ]})
      !! (1, today (Sample.post_local 17 5 0)) = Some r'' /\
    EmpAttd.check_in_time r'' = Some (mk_time_s 17 0 0) /\
    EmpAttd.check_out_time r'' = Some (now (Sample.post_local 17 5 0)).
Proof.
  apply (check_out_too_soon 0 EmpApps.default_settings (Sample.post 17 5 0)
           {[ (1, Sample.day) := Sample.checked_in 17 0 0 "present" ]}
           1 (Sample.checked_in 17 0 0 "present") (Sample.at_time 17 0 0)
           (Sample.post_local 17 5 0)
           {[ (1, Sample.day) := Sample.checked_in_local 17 0 0 ]}
           1 (Sample.checked_in_local 17 0 0) (mk_time_s 17 0 0)).
  - reflexivity.
  - reflexivity.
  - vm_compute. reflexivity.
  - reflexivity.
  - reflexivity.
  - vm_compute. reflexivity.
  - vm_compute. reflexivity.
  - reflexivity.
  - reflexivity.
  - vm_compute. reflexivity.
  - reflexivity.
  - reflexivity.
  - vm_compute. split; discriminate.
Defined.

(** C3, as stated, fails on emp_attd: a check-out at 17:05 on a row
    checked in at 17:00 is not refused, it is stored. *)
Lemma emp_attd_check_out_not_too_soon :
  ~ Attd.too_soon_refused.
Proof.
  intros H.
  specialize (H (Sample.post_local 17 5 0)
                {[ (1, Sample.day) := Sample.checked_in_local 17 0 0 ]}
                1 (Sample.checked_in_local 17 0 0) (mk_time_s 17 0 0)).
  assert (Hout : fst (EmpAttd.check_out (Sample.post_local 17 5 0)
                        {[ (1, Sample.day) := Sample.checked_in_local 17 0 0 ]})
                 = EmpAttd.Failed TooSoon).
  { rewrite H; [reflexivity|..].
    - reflexivity.
    - reflexivity.
    - vm_compute. reflexivity.
    - reflexivity.
    - reflexivity.
    - vm_compute. split; discriminate.
    - vm_compute. reflexivity. }
  vm_compute in Hout. discriminate Hout.
Qed.

(** In emp_attd the check-out view has no minimum: the check-in times
    that its check-in view stores lie at least eight hours before the
    check-out window. *)
Lemma emp_attd_windows_apart (ci now_time : time) :
  mk_time 8 0 <= ci <= mk_time 9 0 ->
  mk_time 17 0 <= now_time <= mk_time 18 0 ->
  minutes 480 <= now_time - ci.
Proof.
  unfold mk_time, minutes, usec_per_hour, usec_per_minute, usec_per_second. lia.
Qed.

Example emp_attd_check_out_after_five_minutes :
  EmpAttd.check_out (Sample.post_local 17 5 0)
    {[ (1, Sample.day) := Sample.checked_in_local 17 0 0 ]}
  = (EmpAttd.CheckedOut 1,
     {[ (1, Sample.day) :=
          EmpAttd.mkAttendance (Some (mk_time 17 0)) (Some (mk_time 17 5))
            "present" false None ]}).
Proof. vm_compute. reflexivity. Qed.

(** C6. The window comes first in both check-out views: outside the
    check-out window the request of an employee is refused with
    [OutOfWindow] whatever the table holds, checked in or not, checked
    out or not, and the table stays as it was. *)
Theorem check_out_window_first (utcoffset : Z) (settings : EmpApps.AttendanceSettings)
    (req : Request datetime) (db : EmpApps.table)
    (req' : Request time) (db' : EmpAttd.table) (e e' : Z) :
  is_post req = true ->
  employee req = Some e ->
  EmpApps.is_check_out_allowed settings (now req) = false ->
  is_post req' = true ->
  employee req' = Some e' ->
  ~ (mk_time 17 0 <= now req' <= mk_time 18 0) ->
  EmpApps.check_out utcoffset settings req db = (EmpApps.Failed OutOfWindow, db) /\
  EmpAttd.check_out req' db' = (EmpAttd.Failed OutOfWindow, db').
Proof.
  intros Hpost He Hwin Hpost' He' Hwin'. split.
  - unfold EmpApps.check_out. rewrite Hpost, He, Hwin. reflexivity.
  - unfold EmpAttd.check_out. rewrite Hpost', He'. simpl.
    destruct ((mk_time 17 0 <=? now req') && (now req' <=? mk_time 18 0)) eqn:Hw.
    + exfalso. apply Hwin'. apply andb_true_iff in Hw as [H1 H2].
      apply Z.leb_le in H1, H2. lia.
    + reflexivity.
Qed.

Lemma check_out_window_first_witness :
  EmpApps.check_out 0 EmpApps.default_settings (Sample.post 8 10 0)
    {[ (1, Sample.day) := Sample.checked_in 8 0 0 "present" ]}
  = (EmpApps.Failed OutOfWindow, {[ (1, Sample.day) := Sample.checked_in 8 0 0 "present" ]}) /\
  EmpAttd.check_out (Sample.post_local 8 10 0)
    {[ (1, Sample.day) := Sample.checked_in_local 8 0 0 ]}
  = (EmpAttd.Failed OutOfWindow, {[ (1, Sample.day) := Sample.checked_in_local 8 0 0 ]}).
Proof.
  apply (check_out_window_first 0 EmpApps.default_settings (Sample.post 8 10 0) _
           (Sample.post_local 8 10 0) _ 1 1).
  - reflexivity.
  - reflexivity.
  - vm_compute. reflexivity.
  - reflexivity.
  - reflexivity.
  - vm_compute. intros [H _]. apply H. reflexivity.
Defined.

(** ** Refusals leave the table alone *)

Lemma emp_apps_check_in_failed (utcoffset : Z) (settings : EmpApps.AttendanceSettings)
    (req : Request datetime) (db : EmpApps.table) :
  EmpApps.success (fst (EmpApps.check_in utcoffset settings req db)) = false ->
  snd (EmpApps.check_in utcoffset settings req db) = db.
Proof.
  unfold EmpApps.check_in, EmpApps.check_in_fetch.
  destruct (is_post req); [|done]. simpl.
  destruct (employee req) as [e|]; [|done].
  destruct (EmpApps.is_check_in_allowed settings (now req)); [|done]. simpl.
  unfold EmpApps.get_or_create, EmpApps.check_in_update.
  destruct (db !! (e, today req)) as [r|] eqn:Hrow; simpl.
  - destruct (truthy (EmpApps.check_in_time r)); simpl; [done|]. discriminate.
  - discriminate.
Qed.

Lemma emp_apps_check_out_failed (utcoffset : Z) (settings : EmpApps.AttendanceSettings)
    (req : Request datetime) (db : EmpApps.table) :
  EmpApps.success (fst (EmpApps.check_out utcoffset settings req db)) = false ->
  snd (EmpApps.check_out utcoffset settings req db) = db.
Proof.
  unfold EmpApps.check_out.
  destruct (is_post req); [|done]. simpl.
  destruct (employee req) as [e|]; [|done].
  destruct (EmpApps.is_check_out_allowed settings (now req)); [|done]. simpl.
  destruct (db !! (e, today req)) as [r|]; [|done].
  destruct (EmpApps.check_in_time r) as [ci|]; [|done].
  destruct (truthy (EmpApps.check_out_time r)); [done|].
  destruct (_ <? _); [done|].
  destruct (EmpApps.calculate_work_hours _) as [r2 hours]. simpl. discriminate.
Qed.

Lemma emp_attd_check_in_failed (req : Request time) (db : EmpAttd.table) :
  EmpAttd.success (fst (EmpAttd.check_in req db)) = false ->
  snd (EmpAttd.check_in req db) = db.
Proof.
  unfold EmpAttd.check_in.
  destruct (is_post req); [|done]. simpl.
  destruct (employee req) as [e|]; [|done].
  destruct (negb _); [done|].
  unfold EmpAttd.get_or_create.
  destruct (db !! (e, today req)) as [r|]; simpl.
  - destruct (truthy (EmpAttd.check_in_time r)); simpl; [done|discriminate].
  - discriminate.
Qed.

Lemma emp_attd_check_out_failed (req : Request time) (db : EmpAttd.table) :
  EmpAttd.success (fst (EmpAttd.check_out req db)) = false ->
  snd (EmpAttd.check_out req db) = db.
Proof.
  unfold EmpAttd.check_out.
  destruct (is_post req); [|done]. simpl.
  destruct (employee req) as [e|]; [|done].
  destruct (negb _); [done|].
  destruct (db !! (e, today req)) as [r|]; [|done].
  destruct (EmpAttd.check_in_time r) as [ci|]; [|done].
  destruct (truthy (EmpAttd.check_out_time r)); [done|].
  simpl. discriminate.
Qed.

(** C10. Whenever a check-in or a check-out view of either application
    answers with a refusal (out of window, already checked in or out, no
    check-in yet, too soon, and also no profile or a wrong method), the
    table afterwards is the table before: every column of every row is
    as it was. *)
Theorem failed_request_changes_nothing (utcoffset : Z) (settings : EmpApps.AttendanceSettings)
    (req : Request datetime) (db : EmpApps.table)
    (req' : Request time) (db' : EmpAttd.table) :
  (EmpApps.success (fst (EmpApps.check_in utcoffset settings req db)) = false ->
   snd (EmpApps.check_in utcoffset settings req db) = db) /\
  (EmpApps.success (fst (EmpApps.check_out utcoffset settings req db)) = false ->
   snd (EmpApps.check_out utcoffset settings req db) = db) /\
  (EmpAttd.success (fst (EmpAttd.check_in req' db')) = false ->
   snd (EmpAttd.check_in req' db') = db') /\
  (EmpAttd.success (fst (EmpAttd.check_out req' db')) = false ->
   snd (EmpAttd.check_out req' db') = db').
Proof.
  repeat split.
  - apply emp_apps_check_in_failed.
  - apply emp_apps_check_out_failed.
  - apply emp_attd_check_in_failed.
  - apply emp_attd_check_out_failed.
Qed.

Lemma failed_request_changes_nothing_witness :
  snd (EmpApps.check_in 0 EmpApps.default_settings (Sample.post 8 30 0)
         {[ (1, Sample.day) := Sample.checked_in 8 0 0 "present" ]})
  = {[ (1, Sample.day) := Sample.checked_in 8 0 0 "present" ]} /\
  snd (EmpApps.check_out 0 EmpApps.default_settings (Sample.post 15 0 0)
         {[ (1, Sample.day) := Sample.marked "absent" ]})
  = {[ (1, Sample.day) := Sample.marked "absent" ]} /\
  snd (EmpAttd.check_in (Sample.post_local 8 30 0)
         {[ (1, Sample.day) := Sample.checked_in_local 8 0 0 ]})
  = {[ (1, Sample.day) := Sample.checked_in_local 8 0 0 ]} /\
  snd (EmpAttd.check_out (Sample.post_local 17 30 0) ∅) = ∅.
Proof.
  pose proof (failed_request_changes_nothing 0 EmpApps.default_settings
                (Sample.post 8 30 0)
                {[ (1, Sample.day) := Sample.checked_in 8 0 0 "present" ]}
                (Sample.post_local 8 30 0)
                {[ (1, Sample.day) := Sample.checked_in_local 8 0 0 ]}) as (H1 & _ & H3 & _).
  pose proof (failed_request_changes_nothing 0 EmpApps.default_settings
                (Sample.post 15 0 0)
                {[ (1, Sample.day) := Sample.marked "absent" ]}
                (Sample.post_local 17 30 0) ∅) as (_ & H2 & _ & H4).
  split; [apply H1; vm_compute; reflexivity|].
  split; [apply H2; vm_compute; reflexivity|].
  split; [apply H3; vm_compute; reflexivity|].
  apply H4; vm_compute; reflexivity.
Defined.

(** ** Check-in *)

Lemma emp_apps_check_in_stamps (utcoffset : Z) (settings : EmpApps.AttendanceSettings)
    (req : Request datetime) (db : EmpApps.table) (e : Z) :
  is_post req = true ->
  employee req = Some e ->
  EmpApps.is_check_in_allowed settings (now req) = true ->
  exists r, snd (EmpApps.check_in utcoffset settings req db) !! (e, today req) = Some r
            /\ is_Some (EmpApps.check_in_time r).
Proof.
  intros Hpost He Hwin.
  unfold EmpApps.check_in, EmpApps.check_in_fetch.
  rewrite Hpost, He, Hwin. simpl.
  unfold EmpApps.get_or_create, EmpApps.check_in_update, EmpApps.save.
  destruct (db !! (e, today req)) as [r|] eqn:Hrow; simpl.
  - destruct (EmpApps.check_in_time r) as [t|] eqn:Hci; simpl.
    + exists r. rewrite Hci. eauto.
    + eexists. rewrite lookup_insert_eq. split; [reflexivity|].
      destruct (before_save_stamps utcoffset
                  (if EmpApps.is_late utcoffset
                        (EmpApps.set_check_in_time (Some (now req)) r)
                        (hhmm (EmpApps.standard_check_in_time settings))
                   then EmpApps.set_status "late" (EmpApps.set_check_in_time (Some (now req)) r)
                   else EmpApps.set_status "present" (EmpApps.set_check_in_time (Some (now req)) r)))
        as [-> _].
      destruct (EmpApps.is_late _ _ _); simpl; eauto.
  - eexists. rewrite lookup_insert_eq. split; [reflexivity|].
    match goal with |- is_Some (EmpApps.check_in_time (EmpApps.before_save _ ?x)) =>
      destruct (before_save_stamps utcoffset x) as [-> _] end.
    destruct (EmpApps.is_late _ _ _); simpl; eauto.
Qed.

Lemma emp_apps_check_in_again (utcoffset : Z) (settings : EmpApps.AttendanceSettings)
    (req : Request datetime) (db : EmpApps.table) (e : Z) (r : EmpApps.AttendanceRecord) :
  is_post req = true ->
  employee req = Some e ->
  EmpApps.is_check_in_allowed settings (now req) = true ->
  db !! (e, today req) = Some r ->
  is_Some (EmpApps.check_in_time r) ->
  EmpApps.check_in utcoffset settings req db = (EmpApps.Failed AlreadyCheckedIn, db).
Proof.
  intros Hpost He Hwin Hrow [t Hci].
  unfold EmpApps.check_in, EmpApps.check_in_fetch.
  rewrite Hpost, He, Hwin. simpl.
  unfold EmpApps.get_or_create, EmpApps.check_in_update.
  rewrite Hrow. simpl. rewrite Hci. reflexivity.
Qed.

Lemma emp_attd_in_window (t : time) :
  mk_time 8 0 <= t <= mk_time 9 0 ->
  negb ((mk_time 8 0 <=? t) && (t <=? mk_time 9 0)) = false.
Proof.
  intros [H1 H2]. apply Z.leb_le in H1, H2. rewrite H1, H2. reflexivity.
Qed.

Lemma emp_attd_check_in_stamps (req : Request time) (db : EmpAttd.table) (e : Z) :
  is_post req = true ->
  employee req = Some e ->
  mk_time 8 0 <= now req <= mk_time 9 0 ->
  exists r, snd (EmpAttd.check_in req db) !! (e, today req) = Some r
            /\ is_Some (EmpAttd.check_in_time r).
Proof.
  intros Hpost He Hwin.
  unfold EmpAttd.check_in.
  rewrite Hpost, He. simpl. rewrite (emp_attd_in_window _ Hwin).
  unfold EmpAttd.get_or_create.
  destruct (db !! (e, today req)) as [r|] eqn:Hrow; simpl.
  - destruct (EmpAttd.check_in_time r) as [t|] eqn:Hci; simpl.
    + exists r. rewrite Hci. eauto.
    + eexists. rewrite lookup_insert_eq. split; [reflexivity|]. simpl. eauto.
  - eexists. rewrite lookup_insert_eq. split; [reflexivity|]. simpl. eauto.
Qed.

Lemma emp_attd_check_in_again (req : Request time) (db : EmpAttd.table) (e : Z)
    (r : EmpAttd.Attendance) :
  is_post req = true ->
  employee req = Some e ->
  mk_time 8 0 <= now req <= mk_time 9 0 ->
  db !! (e, today req) = Some r ->
  is_Some (EmpAttd.check_in_time r) ->
  EmpAttd.check_in req db = (EmpAttd.Failed AlreadyCheckedIn, db).
Proof.
  intros Hpost He Hwin Hrow [t Hci].
  unfold EmpAttd.check_in.
  rewrite Hpost, He. simpl. rewrite (emp_attd_in_window _ Hwin).
  unfold EmpAttd.get_or_create. rewrite Hrow. simpl. rewrite Hci. reflexivity.
Qed.

(** C4. Check-in twice is check-in once, in both applications: whatever
    the table held, after a first check-in request inside the window a
    second one of the same employee on the same day, at any time inside
    the window, is refused with [AlreadyCheckedIn] and leaves the table,
    so the stored check-in time and status, exactly as the first call
    left it. *)
Theorem check_in_twice (utcoffset : Z) (settings : EmpApps.AttendanceSettings)
    (req1 req2 : Request datetime) (db : EmpApps.table) (e : Z)
    (req1' req2' : Request time) (db' : EmpAttd.table) (e' : Z) :
  is_post req1 = true -> employee req1 = Some e ->
  EmpApps.is_check_in_allowed settings (now req1) = true ->
  is_post req2 = true -> employee req2 = Some e -> today req2 = today req1 ->
  EmpApps.is_check_in_allowed settings (now req2) = true ->
  is_post req1' = true -> employee req1' = Some e' ->
  mk_time 8 0 <= now req1' <= mk_time 9 0 ->
  is_post req2' = true -> employee req2' = Some e' -> today req2' = today req1' ->
  mk_time 8 0 <= now req2' <= mk_time 9 0 ->
  EmpApps.check_in utcoffset settings req2 (snd (EmpApps.check_in utcoffset settings req1 db))
  = (EmpApps.Failed AlreadyCheckedIn, snd (EmpApps.check_in utcoffset settings req1 db)) /\
  EmpAttd.check_in req2' (snd (EmpAttd.check_in req1' db'))
  = (EmpAttd.Failed AlreadyCheckedIn, snd (EmpAttd.check_in req1' db')).
Proof.
  intros Hp1 He1 Hw1 Hp2 He2 Hd2 Hw2 Hp1' He1' Hw1' Hp2' He2' Hd2' Hw2'. split.
  - destruct (emp_apps_check_in_stamps utcoffset settings req1 db e Hp1 He1 Hw1)
      as (r & Hrow & Hci).
    apply (emp_apps_check_in_again utcoffset settings req2 _ e r); auto.
    rewrite Hd2. exact Hrow.
  - destruct (emp_attd_check_in_stamps req1' db' e' Hp1' He1' Hw1') as (r & Hrow & Hci).
    apply (emp_attd_check_in_again req2' _ e' r); auto.
    rewrite Hd2'. exact Hrow.
Qed.

Lemma check_in_twice_witness :
  EmpApps.check_in 0 EmpApps.default_settings (Sample.post 8 40 0)
    (snd (EmpApps.check_in 0 EmpApps.default_settings (Sample.post 8 30 0) ∅))
  = (EmpApps.Failed AlreadyCheckedIn,
     snd (EmpApps.check_in 0 EmpApps.default_settings (Sample.post 8 30 0) ∅)) /\
  EmpAttd.check_in (Sample.post_local 8 40 0)
    (snd (EmpAttd.check_in (Sample.post_local 8 30 0) ∅))
  = (EmpAttd.Failed AlreadyCheckedIn,
     snd (EmpAttd.check_in (Sample.post_local 8 30 0) ∅)).
Proof.
  apply (check_in_twice 0 EmpApps.default_settings
           (Sample.post 8 30 0) (Sample.post 8 40 0) ∅ 1
           (Sample.post_local 8 30 0) (Sample.post_local 8 40 0) ∅ 1);
    try reflexivity; vm_compute; (reflexivity || (split; discriminate)).
Defined.

(** C5. [can_check_in] is true exactly when the time of day of [now]
    lies in the closed check-in window (that of the settings in
    emp_apps, 08:00 to 09:00 in emp_attd) and no check-in time is
    stored; it is a function to [bool] that is handed no table and
    returns no record, so it changes none. *)
Theorem can_check_in_iff (settings : EmpApps.AttendanceSettings)
    (row : option EmpApps.AttendanceRecord) (current_time : datetime)
    (r : EmpAttd.Attendance) (now_time : time) :
  (EmpApps.can_check_in settings row current_time = true <->
   (EmpApps.check_in_start_time settings <= time_of current_time
      <= EmpApps.check_in_end_time settings) /\
   row ≫= EmpApps.check_in_time = None) /\
  (EmpAttd.can_check_in r now_time = true <->
   (mk_time 8 0 <= now_time <= mk_time 9 0) /\ EmpAttd.check_in_time r = None).
Proof.
  split.
  - unfold EmpApps.can_check_in, EmpApps.is_check_in_allowed.
    destruct row as [rec|]; simpl.
    + rewrite !andb_true_iff, negb_true_iff, truthy_false, !Z.leb_le. tauto.
    + rewrite !andb_true_iff, !Z.leb_le. tauto.
  - unfold EmpAttd.can_check_in.
    rewrite !andb_true_iff, negb_true_iff, truthy_false, !Z.leb_le. tauto.
Qed.

(** C9. In emp_attd every check-in that succeeds answers 'on_time' and
    leaves the row of the day with the time of the request, status
    'present' and [is_late] false: the window ends at 09:00, before the
    cut-off of 09:15, so 'late' is never stored. *)
Theorem emp_attd_check_in_never_late (req : Request time) (db : EmpAttd.table) :
  EmpAttd.success (fst (EmpAttd.check_in req db)) = true ->
  fst (EmpAttd.check_in req db) = EmpAttd.CheckedIn false /\
  exists e r, employee req = Some e /\
    snd (EmpAttd.check_in req db) !! (e, today req) = Some r /\
    EmpAttd.check_in_time r = Some (now req) /\
    EmpAttd.status r = "present" /\
    EmpAttd.is_late r = false.
Proof.
  unfold EmpAttd.check_in.
  destruct (is_post req); [|discriminate]. simpl.
  destruct (employee req) as [e|]; [|discriminate].
  destruct ((mk_time 8 0 <=? now req) && (now req <=? mk_time 9 0)) eqn:Hwin;
    [|discriminate]. simpl.
  apply andb_true_iff in Hwin as [H8 H9]. apply Z.leb_le in H8, H9.
  assert (Hlate : (mk_time 9 15 <? now req) = false).
  { apply Z.ltb_ge. revert H9.
    unfold mk_time, usec_per_hour, usec_per_minute, usec_per_second. lia. }
  rewrite Hlate.
  unfold EmpAttd.get_or_create.
  destruct (db !! (e, today req)) as [r|] eqn:Hrow; simpl.
  - destruct (EmpAttd.check_in_time r) as [t|] eqn:Hci; simpl; [discriminate|].
    intros _. split; [reflexivity|].
    eexists e, _. split; [reflexivity|]. rewrite lookup_insert_eq.
    split; [reflexivity|]. simpl. auto.
  - intros _. split; [reflexivity|].
    eexists e, _. split; [reflexivity|]. rewrite lookup_insert_eq.
    split; [reflexivity|]. simpl. auto.
Qed.

Lemma emp_attd_check_in_never_late_witness :
  fst (EmpAttd.check_in (Sample.post_local 9 0 0) ∅) = EmpAttd.CheckedIn false /\
  exists e r, employee (Sample.post_local 9 0 0) = Some e /\
    snd (EmpAttd.check_in (Sample.post_local 9 0 0) ∅) !! (e, today (Sample.post_local 9 0 0)) = Some r /\
    EmpAttd.check_in_time r = Some (now (Sample.post_local 9 0 0)) /\
    EmpAttd.status r = "present" /\
    EmpAttd.is_late r = false.
Proof.
  apply (emp_attd_check_in_never_late (Sample.post_local 9 0 0) ∅).
  vm_compute. reflexivity.
Defined.

(** ** Status *)

(** The check-in view of emp_apps never reads [late_threshold_minutes]. *)
Lemma check_in_ignores_late_threshold (utcoffset m : Z) (settings : EmpApps.AttendanceSettings)
    (req : Request datetime) (db : EmpApps.table) :
  EmpApps.check_in utcoffset (EmpApps.with_late_threshold m settings) req db
  = EmpApps.check_in utcoffset settings req db.
Proof. reflexivity. Qed.

(** The status that a successful check-in of emp_apps stores: 'late' as
    soon as the check-in is after the standard time (to the minute) of
    its day. *)
Lemma emp_apps_check_in_status (utcoffset : Z) (settings : EmpApps.AttendanceSettings)
    (req : Request datetime) (db : EmpApps.table) (e : Z) :
  employee req = Some e ->
  EmpApps.success (fst (EmpApps.check_in utcoffset settings req db)) = true ->
  exists r, snd (EmpApps.check_in utcoffset settings req db) !! (e, today req) = Some r /\
    EmpApps.check_in_time r = Some (now req) /\
    EmpApps.status r =
      if make_aware utcoffset
           (combine (date_of (now req)) (hhmm (EmpApps.standard_check_in_time settings)))
         <? now req
      then "late" else "present".
Proof.
  intros He.
  unfold EmpApps.check_in, EmpApps.check_in_fetch. rewrite He.
  destruct (is_post req); [|discriminate]. simpl.
  destruct (EmpApps.is_check_in_allowed settings (now req)); [|discriminate]. simpl.
  unfold EmpApps.get_or_create.
  assert (Hupd : forall (r0 : EmpApps.AttendanceRecord) (db0 : EmpApps.table),
    EmpApps.check_in_time r0 = None ->
    exists r, snd (EmpApps.check_in_update utcoffset settings (now req) (e, today req) r0 db0)
                !! (e, today req) = Some r /\
      EmpApps.check_in_time r = Some (now req) /\
      EmpApps.status r =
        if make_aware utcoffset
             (combine (date_of (now req)) (hhmm (EmpApps.standard_check_in_time settings)))
           <? now req
        then "late" else "present").
  { intros r0 db0 Hci0. unfold EmpApps.check_in_update, EmpApps.save.
    rewrite Hci0. simpl. eexists. rewrite lookup_insert_eq. split; [reflexivity|].
    change (EmpApps.is_late utcoffset (EmpApps.set_check_in_time (Some (now req)) r0)
              (hhmm (EmpApps.standard_check_in_time settings)))
      with (make_aware utcoffset
              (combine (date_of (now req)) (hhmm (EmpApps.standard_check_in_time settings)))
            <? now req).
    destruct (_ <? _);
      match goal with |- context [EmpApps.before_save _ ?x] =>
        destruct (before_save_stamps utcoffset x) as [-> _];
        rewrite (before_save_status utcoffset x) by discriminate
      end; simpl; auto. }
  destruct (db !! (e, today req)) as [r|] eqn:Hrow; simpl.
  - destruct (EmpApps.check_in_time r) as [t|] eqn:Hci.
    + unfold EmpApps.check_in_update. rewrite Hci. simpl. discriminate.
    + intros _. exact (Hupd r db Hci).
  - intros _. exact (Hupd EmpApps.new_record _ eq_refl).
Qed.

(** C1. With the default settings (standard check-in 09:00, late
    threshold 15 minutes) a check-in of emp_apps at 09:05 UTC exceeds the
    standard time by less than the threshold, yet the view answers and
    stores 'late'. *)
Theorem emp_apps_late_inside_threshold :
  Spec.late_by_threshold
    (EmpApps.standard_check_in_time EmpApps.default_settings)
    (EmpApps.late_threshold_minutes EmpApps.default_settings)
    (Sample.at_time 9 5 0) = false /\
  fst (EmpApps.check_in 0 EmpApps.default_settings (Sample.post 9 5 0) ∅)
  = EmpApps.CheckedIn (Sample.at_time 9 5 0) "late" /\
  snd (EmpApps.check_in 0 EmpApps.default_settings (Sample.post 9 5 0) ∅) !! (1, Sample.day)
  = Some (Sample.checked_in 9 5 0 "late").
Proof. vm_compute. auto. Qed.

(** The cut-off of emp_attd is the standard time plus the threshold of
    the specification, 09:00 and 15 minutes. *)
Lemma emp_attd_cut_off (now_time : time) :
  0 <= now_time < usec_per_day ->
  (mk_time 9 15 <? now_time) = Spec.late_by_threshold (mk_time 9 0) 15 now_time.
Proof.
  intros H. unfold Spec.late_by_threshold, time_of.
  rewrite Z.mod_small by exact H. reflexivity.
Qed.

Lemma emp_apps_check_out_status (utcoffset : Z) (settings : EmpApps.AttendanceSettings)
    (req : Request datetime) (db : EmpApps.table) :
  Reach.status_kept (fun _ => True) db (snd (EmpApps.check_out utcoffset settings req db)).
Proof.
  intros key r Hrow _ Hst.
  destruct (EmpApps.success (fst (EmpApps.check_out utcoffset settings req db))) eqn:Hok.
  2:{ rewrite (emp_apps_check_out_failed _ _ _ _ Hok). eauto. }
  revert Hok. unfold EmpApps.check_out.
  destruct (is_post req); [|discriminate]. simpl.
  destruct (employee req) as [e|]; [|discriminate].
  destruct (EmpApps.is_check_out_allowed settings (now req)); [|discriminate]. simpl.
  destruct (db !! (e, today req)) as [r0|] eqn:Hrow0; [|discriminate].
  destruct (EmpApps.check_in_time r0) as [ci|]; [|discriminate].
  destruct (truthy (EmpApps.check_out_time r0)); [discriminate|].
  destruct (_ <? _); [discriminate|].
  pose proof (calculate_work_hours_fields
                (EmpApps.set_check_out_time (Some (now req)) r0)) as Hf.
  destruct (EmpApps.calculate_work_hours _) as [r2 hours]. simpl in Hf.
  destruct Hf as (_ & _ & Hs2 & _).
  unfold EmpApps.save. simpl. intros _.
  destruct (decide ((e, today req) = key)) as [<-|Hne].
  - rewrite lookup_insert_eq. eexists. split; [reflexivity|].
    rewrite Hrow0 in Hrow. injection Hrow as <-.
    rewrite before_save_status; congruence.
  - rewrite lookup_insert_ne by exact Hne. eauto.
Qed.

Lemma emp_apps_check_in_keeps_other (utcoffset : Z) (settings : EmpApps.AttendanceSettings)
    (req : Request datetime) (db : EmpApps.table) (key : Z * date)
    (r : EmpApps.AttendanceRecord) :
  db !! key = Some r ->
  is_Some (EmpApps.check_in_time r) ->
  snd (EmpApps.check_in utcoffset settings req db) !! key = Some r.
Proof.
  intros Hrow [t Hci].
  unfold EmpApps.check_in, EmpApps.check_in_fetch.
  destruct (is_post req); [|done]. simpl.
  destruct (employee req) as [e|]; [|done].
  destruct (EmpApps.is_check_in_allowed settings (now req)); [|done]. simpl.
  unfold EmpApps.get_or_create, EmpApps.check_in_update, EmpApps.save.
  destruct (decide ((e, today req) = key)) as [<-|Hne].
  - rewrite Hrow. simpl. rewrite Hci. exact Hrow.
  - destruct (db !! (e, today req)) as [r0|] eqn:Hrow0; simpl.
    + destruct (truthy (EmpApps.check_in_time r0)); simpl; [done|].
      rewrite lookup_insert_ne by exact Hne. exact Hrow.
    + rewrite !lookup_insert_ne by exact Hne. exact Hrow.
Qed.

(** C7, as the code has it. A status other than 'absent' is kept by
    [save] and by every check-out request, and by every check-in request
    on the rows that have a check-in time. *)
Theorem status_fixed_after_check_in (utcoffset : Z) (settings : EmpApps.AttendanceSettings)
    (req : Request datetime) (db : EmpApps.table) (r : EmpApps.AttendanceRecord) :
  (EmpApps.status r <> "absent" ->
   EmpApps.status (EmpApps.before_save utcoffset r) = EmpApps.status r) /\
  Reach.status_kept (fun _ => True) db
    (snd (EmpApps.check_out utcoffset settings req db)) /\
  Reach.status_kept (fun r0 => is_Some (EmpApps.check_in_time r0)) db
    (snd (EmpApps.check_in utcoffset settings req db)).
Proof.
  split; [apply before_save_status|].
  split; [apply emp_apps_check_out_status|].
  intros key r0 Hrow Hci _. exists r0. split; [|reflexivity].
  apply emp_apps_check_in_keeps_other; assumption.
Qed.

Lemma status_fixed_after_check_in_witness :
  EmpApps.status (EmpApps.before_save 0 (Sample.checked_in 8 0 0 "half_day")) = "half_day" /\
  (exists r', snd (EmpApps.check_out 0 EmpApps.default_settings (Sample.post 16 0 0)
                     {[ (1, Sample.day) := Sample.checked_in 8 0 0 "half_day" ]})
                !! (1, Sample.day) = Some r' /\ EmpApps.status r' = "half_day") /\
  (exists r', snd (EmpApps.check_in 0 EmpApps.default_settings (Sample.post 8 30 0)
                     {[ (1, Sample.day) := Sample.checked_in 8 0 0 "half_day" ]})
                !! (1, Sample.day) = Some r' /\ EmpApps.status r' = "half_day").
Proof.
  pose proof (status_fixed_after_check_in 0 EmpApps.default_settings (Sample.post 16 0 0)
                {[ (1, Sample.day) := Sample.checked_in 8 0 0 "half_day" ]}
                (Sample.checked_in 8 0 0 "half_day")) as (H1 & H2 & _).
  pose proof (status_fixed_after_check_in 0 EmpApps.default_settings (Sample.post 8 30 0)
                {[ (1, Sample.day) := Sample.checked_in 8 0 0 "half_day" ]}
                (Sample.checked_in 8 0 0 "half_day")) as (_ & _ & H3).
  split; [apply H1; discriminate|].
  split.
  - apply (H2 (1, Sample.day) (Sample.checked_in 8 0 0 "half_day")).
    + vm_compute. reflexivity.
    + exact I.
    + discriminate.
  - apply (H3 (1, Sample.day) (Sample.checked_in 8 0 0 "half_day")).
    + vm_compute. reflexivity.
    + simpl. eauto.
    + discriminate.
Defined.

(** C7, as stated, fails: a row that an administrator marked 'half_day'
    before any check-in loses the mark at check-in. *)
Lemma status_overwritten_at_check_in :
  ~ (forall (utcoffset : Z) (settings : EmpApps.AttendanceSettings)
       (req : Request datetime) (db : EmpApps.table),
       Reach.status_kept (fun _ => True) db
         (snd (EmpApps.check_in utcoffset settings req db))).
Proof.
  intros H.
  destruct (H 0 EmpApps.default_settings (Sample.post 8 30 0)
              {[ (1, Sample.day) := Sample.marked "half_day" ]}
              (1, Sample.day) (Sample.marked "half_day")) as (r' & Hrow & Hst).
  - vm_compute. reflexivity.
  - exact I.
  - discriminate.
  - vm_compute in Hrow. injection Hrow as <-. discriminate.
Qed.

(** ** Work hours *)

Lemma round_half_even_nearest (n d : Z) :
  0 < d ->
  Z.abs (2 * (n - d * PyFloat.round_half_even n d)) <= d.
Proof.
  intros Hd. unfold PyFloat.round_half_even.
  pose proof (Z.div_mod n d ltac:(lia)) as Hdm.
  pose proof (Z.mod_pos_bound n d Hd) as Hr.
  destruct (2 * (n mod d) <? d) eqn:H1; [apply Z.ltb_lt in H1; nia|].
  apply Z.ltb_ge in H1.
  destruct (d <? 2 * (n mod d)) eqn:H2; [apply Z.ltb_lt in H2; nia|].
  apply Z.ltb_ge in H2.
  destruct (Z.even (n / d)); nia.
Qed.

Lemma scaled_fraction_positive (scale : Z) (x : float) (n d : Z) :
  PyFloat.scaled_fraction scale x = Some (n, d) -> 0 < d.
Proof.
  unfold PyFloat.scaled_fraction.
  destruct (Prim2SF x) as [s| s| |s m e]; try discriminate.
  - intros [= <- <-]. lia.
  - destruct (0 <=? e) eqn:He; intros [= <- <-]; [lia|].
    apply Z.leb_gt in He. apply Z.pow_pos_nonneg; lia.
Qed.

(** [round(x, 2)] is a two-place decimal nearest to the double [x]. *)
Lemma py_round_nearest (scale : Z) (x : float) (n d : Z) :
  PyFloat.scaled_fraction scale x = Some (n, d) ->
  0 < d /\ Z.abs (2 * (n - d * PyFloat.py_round scale x)) <= d.
Proof.
  intros H. pose proof (scaled_fraction_positive _ _ _ _ H) as Hd.
  split; [exact Hd|]. unfold PyFloat.py_round. rewrite H.
  apply round_half_even_nearest. exact Hd.
Qed.

Lemma before_save_agree (utcoffset : Z) (r : EmpApps.AttendanceRecord) :
  (EmpApps.check_in_time r = None \/ EmpApps.check_out_time r = None ->
   EmpApps.work_hours r = None) ->
  Reach.work_hours_agree (EmpApps.before_save utcoffset r).
Proof.
  intros Hnone. unfold Reach.work_hours_agree.
  destruct (before_save_stamps utcoffset r) as [-> ->].
  unfold EmpApps.before_save, EmpApps.calculate_work_hours.
  destruct (EmpApps.check_in_time r) as [ci|] eqn:Hci;
    destruct (EmpApps.check_out_time r) as [co|] eqn:Hco; simpl;
    repeat match goal with
      | |- context [if ?b then _ else _] => destruct b; simpl
      end; try reflexivity; try rewrite Hci; try rewrite Hco;
    try reflexivity; apply Hnone; auto.
Qed.

Lemma reachable_agree (utcoffset : Z) (settings : EmpApps.AttendanceSettings)
    (db : EmpApps.table) :
  Reach.reachable utcoffset settings db ->
  forall (key : Z * date) (r : EmpApps.AttendanceRecord),
    db !! key = Some r -> Reach.work_hours_agree r.
Proof.
  induction 1 as [|req db Hreach IH|req db Hreach IH|key0 r0 db Hreach IH Hrow0];
    intros key r Hrow.
  - rewrite lookup_empty in Hrow. discriminate.
  - revert Hrow. unfold EmpApps.check_in, EmpApps.check_in_fetch.
    destruct (is_post req); [|apply IH]. simpl.
    destruct (employee req) as [e|]; [|apply IH].
    destruct (EmpApps.is_check_in_allowed settings (now req)); [|apply IH]. simpl.
    unfold EmpApps.get_or_create, EmpApps.check_in_update, EmpApps.save.
    destruct (db !! (e, today req)) as [r1|] eqn:Hrow1; simpl.
    + destruct (EmpApps.check_in_time r1) as [t|] eqn:Hci; simpl; [apply IH|].
      destruct (decide ((e, today req) = key)) as [<-|Hne].
      * rewrite lookup_insert_eq. intros [= <-]. apply before_save_agree.
        pose proof (IH _ _ Hrow1) as Hag. unfold Reach.work_hours_agree in Hag.
        rewrite Hci in Hag.
        destruct (EmpApps.is_late _ _ _); simpl; intros _; exact Hag.
      * rewrite lookup_insert_ne by exact Hne. apply IH.
    + destruct (decide ((e, today req) = key)) as [<-|Hne].
      * rewrite lookup_insert_eq. intros [= <-]. apply before_save_agree.
        destruct (EmpApps.is_late _ _ _); simpl; intros _; reflexivity.
      * rewrite !lookup_insert_ne by exact Hne. apply IH.
  - revert Hrow. unfold EmpApps.check_out.
    destruct (is_post req); [|apply IH]. simpl.
    destruct (employee req) as [e|]; [|apply IH].
    destruct (EmpApps.is_check_out_allowed settings (now req)); [|apply IH]. simpl.
    destruct (db !! (e, today req)) as [r1|] eqn:Hrow1; [|apply IH].
    destruct (EmpApps.check_in_time r1) as [ci|] eqn:Hci; [|apply IH].
    destruct (truthy (EmpApps.check_out_time r1)); [apply IH|].
    destruct (_ <? _); [apply IH|].
    pose proof (calculate_work_hours_fields
                  (EmpApps.set_check_out_time (Some (now req)) r1)) as Hf.
    destruct (EmpApps.calculate_work_hours _) as [r2 hours]. simpl in Hf.
    destruct Hf as (Hci2 & Hco2 & _).
    unfold EmpApps.save. simpl.
    destruct (decide ((e, today req) = key)) as [<-|Hne].
    + rewrite lookup_insert_eq. intros [= <-]. apply before_save_agree.
      rewrite Hci2, Hco2, Hci. intros [?|?]; discriminate.
    + rewrite lookup_insert_ne by exact Hne. apply IH.
  - revert Hrow. unfold EmpApps.save. simpl.
    destruct (decide (key0 = key)) as [<-|Hne].
    + rewrite lookup_insert_eq. intros [= <-]. apply before_save_agree.
      pose proof (IH _ _ Hrow0) as Hag. unfold Reach.work_hours_agree in Hag.
      intros [Hn|Hn]; rewrite Hn in Hag; [exact Hag|].
      destruct (EmpApps.check_in_time r0); exact Hag.
    + rewrite lookup_insert_ne by exact Hne. apply IH.
Qed.

(** C2, as the code has it. In every table that check-in, check-out and
    saving a stored row again build, a row has work hours exactly when it
    has both stamps,
    and then they are [round(hours, 2)] of the double
    [(check_out - check_in).total_seconds() / 3600]: a two-place decimal
    nearest to that double, which is not always the half-up rounding of
    the exact quotient. *)
Theorem work_hours_of_reachable (utcoffset : Z) (settings : EmpApps.AttendanceSettings)
    (db : EmpApps.table) (key : Z * date) (r : EmpApps.AttendanceRecord) :
  Reach.reachable utcoffset settings db ->
  db !! key = Some r ->
  (is_Some (EmpApps.work_hours r) <->
   is_Some (EmpApps.check_in_time r) /\ is_Some (EmpApps.check_out_time r)) /\
  forall ci co : datetime,
    EmpApps.check_in_time r = Some ci ->
    EmpApps.check_out_time r = Some co ->
    EmpApps.work_hours r = Some (PyFloat.py_round 100 (Reach.hours_between ci co)) /\
    forall n d : Z,
      PyFloat.scaled_fraction 100 (Reach.hours_between ci co) = Some (n, d) ->
      0 < d /\ Z.abs (2 * (n - d * PyFloat.py_round 100 (Reach.hours_between ci co))) <= d.
Proof.
  intros Hreach Hrow.
  pose proof (reachable_agree _ _ _ Hreach _ _ Hrow) as Hag.
  unfold Reach.work_hours_agree in Hag. split.
  - rewrite Hag.
    destruct (EmpApps.check_in_time r), (EmpApps.check_out_time r);
      split; try (intros [? ?]); try (intros [[? ?] [? ?]]); try discriminate; eauto.
  - intros ci co Hci Hco. rewrite Hci, Hco in Hag. split; [exact Hag|].
    intros n d. apply py_round_nearest.
Qed.

Lemma work_hours_of_reachable_witness :
  EmpApps.work_hours
    (EmpApps.mkAttendanceRecord (Some (Sample.at_time 9 0 0))
       (Some (Sample.at_time 17 30 0)) "present" (Some 850) "")
  = Some (PyFloat.py_round 100
            (Reach.hours_between (Sample.at_time 9 0 0) (Sample.at_time 17 30 0))).
Proof.
  refine (proj1 (proj2 (work_hours_of_reachable 0 EmpApps.default_settings
            (snd (EmpApps.check_out 0 EmpApps.default_settings (Sample.post 17 30 0)
                    (snd (EmpApps.check_in 0 EmpApps.default_settings
                            (Sample.post 9 0 0) ∅))))
            (1, Sample.day)
            (EmpApps.mkAttendanceRecord (Some (Sample.at_time 9 0 0))
               (Some (Sample.at_time 17 30 0)) "present" (Some 850) "")
            _ _) (Sample.at_time 9 0 0) (Sample.at_time 17 30 0) eq_refl eq_refl)).
  - apply Reach.reach_check_out, Reach.reach_check_in, Reach.reach_empty.
  - vm_compute. reflexivity.
Defined.

(** The scenario of the specification: in at 09:00, out at 17:30, 8.50
    hours. *)
Example work_hours_8_50 :
  snd (EmpApps.check_out 0 EmpApps.default_settings (Sample.post 17 30 0)
         (snd (EmpApps.check_in 0 EmpApps.default_settings (Sample.post 9 0 0) ∅)))
    !! (1, Sample.day)
  = Some (EmpApps.mkAttendanceRecord (Some (Sample.at_time 9 0 0))
            (Some (Sample.at_time 17 30 0)) "present" (Some 850) "").
Proof. vm_compute. reflexivity. Qed.

(** Outside those tables the two sides can part: [save] leaves the work
    hours of a row in place when an edit has removed a stamp. *)
Lemma save_keeps_stale_work_hours (utcoffset : Z) (r : EmpApps.AttendanceRecord) :
  EmpApps.work_hours
    (EmpApps.before_save utcoffset (EmpApps.set_check_out_time None r))
  = EmpApps.work_hours r.
Proof.
  unfold EmpApps.before_save. simpl. rewrite andb_false_r.
  destruct (_ && _); [destruct (EmpApps.is_late _ _ _)|]; reflexivity.
Qed.

(** C2, as stated, fails: after a check-in at 11:00:00 and a check-out at
    15:07:30 the difference is 4.125 hours, stored as 4.12 where half-up
    gives 4.13. *)
Lemma work_hours_not_half_up :
  ~ Reach.work_hours_rounded_half_up 0 EmpApps.default_settings.
Proof.
  intros H.
  specialize (H (snd (EmpApps.check_out 0 EmpApps.default_settings (Sample.post 15 7 30)
                        (snd (EmpApps.check_in 0 EmpApps.default_settings
                                (Sample.post 11 0 0) ∅))))
                (1, Sample.day)
                (EmpApps.mkAttendanceRecord (Some (Sample.at_time 11 0 0))
                   (Some (Sample.at_time 15 7 30)) "late" (Some 412) "")
                (Sample.at_time 11 0 0) (Sample.at_time 15 7 30)).
  assert (Hw : Some 412 = Some (Spec.work_hours_half_up (Sample.at_time 11 0 0)
                                  (Sample.at_time 15 7 30))).
  { apply H.
    - apply Reach.reach_check_out, Reach.reach_check_in, Reach.reach_empty.
    - vm_compute. reflexivity.
    - reflexivity.
    - reflexivity. }
  vm_compute in Hw. discriminate Hw.
Qed.

(** ** Two check-ins at once *)

(** A worker left alone for two steps runs the view. *)
Lemma run_alone_is_check_in (utcoffset : Z) (settings : EmpApps.AttendanceSettings)
    (req : Request datetime) (db : EmpApps.table) :
  let '(h, db1) := Race.step utcoffset settings (Race.Received req) db in
  Race.step utcoffset settings h db1
  = (Race.Replied (fst (EmpApps.check_in utcoffset settings req db)),
     snd (EmpApps.check_in utcoffset settings req db)).
Proof.
  unfold Race.step, EmpApps.check_in.
  destruct (EmpApps.check_in_fetch settings req db) as [[f|[key r]] db1]; simpl.
  - reflexivity.
  - destruct (EmpApps.check_in_update utcoffset settings (now req) key r db1). reflexivity.
Qed.

Lemma step_pending (utcoffset : Z) (settings : EmpApps.AttendanceSettings)
    (req : Request datetime) (db : EmpApps.table) (e : Z) (h : Race.Handler) :
  is_post req = true ->
  employee req = Some e ->
  EmpApps.is_check_in_allowed settings (now req) = true ->
  db !! (e, today req) ≫= EmpApps.check_in_time = None ->
  Race.pending req (e, today req) h ->
  let h' := fst (Race.step utcoffset settings h db) in
  let db' := snd (Race.step utcoffset settings h db) in
  Race.succeeded h' = true \/
  (Race.pending req (e, today req) h' /\
   db' !! (e, today req) ≫= EmpApps.check_in_time = None).
Proof.
  intros Hpost He Hwin Hopen [->|(r & -> & Hci)]; simpl.
  - right. unfold EmpApps.check_in_fetch. rewrite Hpost, He, Hwin. simpl.
    unfold EmpApps.get_or_create.
    destruct (db !! (e, today req)) as [r|] eqn:Hrow; simpl.
    + split; [|rewrite Hrow; exact Hopen].
      right. exists r. split; [reflexivity|]. exact Hopen.
    + split; [|rewrite lookup_insert_eq; reflexivity].
      right. exists EmpApps.new_record. split; reflexivity.
  - left. unfold EmpApps.check_in_update. rewrite Hci. simpl. reflexivity.
Qed.

Lemma step_replied (utcoffset : Z) (settings : EmpApps.AttendanceSettings)
    (h : Race.Handler) (db : EmpApps.table) :
  Race.succeeded h = true ->
  Race.succeeded (fst (Race.step utcoffset settings h db)) = true.
Proof. destruct h; simpl; try discriminate. auto. Qed.

Lemma race_some_winner (utcoffset : Z) (settings : EmpApps.AttendanceSettings)
    (req1 req2 : Request datetime) (e : Z) (schedule : list Race.Worker) :
  is_post req1 = true -> employee req1 = Some e ->
  EmpApps.is_check_in_allowed settings (now req1) = true ->
  is_post req2 = true -> employee req2 = Some e ->
  EmpApps.is_check_in_allowed settings (now req2) = true ->
  today req2 = today req1 ->
  forall (h1 h2 : Race.Handler) (db : EmpApps.table),
    (Race.succeeded h1 = true \/ Race.succeeded h2 = true \/
     (Race.pending req1 (e, today req1) h1 /\ Race.pending req2 (e, today req1) h2 /\
      db !! (e, today req1) ≫= EmpApps.check_in_time = None)) ->
    forall (h1' h2' : Race.Handler) (db' : EmpApps.table),
      Race.run utcoffset settings schedule h1 h2 db = (h1', h2', db') ->
      Race.finished h1' = true -> Race.finished h2' = true ->
      Race.succeeded h1' = true \/ Race.succeeded h2' = true.
Proof.
  intros Hp1 He1 Hw1 Hp2 He2 Hw2 Hday.
  induction schedule as [|w rest IH]; intros h1 h2 db Hinv h1' h2' db' Hrun Hf1 Hf2.
  - simpl in Hrun. injection Hrun as <- <- <-.
    destruct Hinv as [H|[H|(P1 & P2 & _)]]; auto.
    destruct P1 as [->|(r & -> & _)]; discriminate.
  - destruct w; simpl in Hrun.
    + destruct (Race.step utcoffset settings h1 db) as [h1s dbs] eqn:Hstep.
      refine (IH h1s h2 dbs _ h1' h2' db' Hrun Hf1 Hf2).
      destruct Hinv as [H|[H|(P1 & P2 & Hopen)]].
      * left. pose proof (step_replied utcoffset settings h1 db H) as Hs.
        rewrite Hstep in Hs. exact Hs.
      * auto.
      * pose proof (step_pending utcoffset settings req1 db e h1 Hp1 He1 Hw1 Hopen P1) as Hs.
        rewrite Hstep in Hs. simpl in Hs. destruct Hs as [Hs|[Hs Hopen']]; auto.
    + destruct (Race.step utcoffset settings h2 db) as [h2s dbs] eqn:Hstep.
      refine (IH h1 h2s dbs _ h1' h2' db' Hrun Hf1 Hf2).
      destruct Hinv as [H|[H|(P1 & P2 & Hopen)]].
      * auto.
      * right; left. pose proof (step_replied utcoffset settings h2 db H) as Hs.
        rewrite Hstep in Hs. exact Hs.
      * rewrite <- Hday in P2, Hopen.
        pose proof (step_pending utcoffset settings req2 db e h2 Hp2 He2 Hw2 Hopen P2) as Hs.
        rewrite Hstep in Hs. simpl in Hs. rewrite Hday in Hs.
        destruct Hs as [Hs|[Hs Hopen']]; auto.
Qed.

Lemma emp_apps_check_in_succeeds (utcoffset : Z) (settings : EmpApps.AttendanceSettings)
    (req : Request datetime) (db : EmpApps.table) (e : Z) :
  is_post req = true ->
  employee req = Some e ->
  EmpApps.is_check_in_allowed settings (now req) = true ->
  db !! (e, today req) ≫= EmpApps.check_in_time = None ->
  EmpApps.success (fst (EmpApps.check_in utcoffset settings req db)) = true.
Proof.
  intros Hpost He Hwin Hopen.
  unfold EmpApps.check_in, EmpApps.check_in_fetch.
  rewrite Hpost, He, Hwin. simpl.
  unfold EmpApps.get_or_create, EmpApps.check_in_update.
  destruct (db !! (e, today req)) as [r|] eqn:Hrow; simpl in *.
  - rewrite Hopen. reflexivity.
  - reflexivity.
Qed.

Lemma run_serial (utcoffset : Z) (settings : EmpApps.AttendanceSettings)
    (req1 req2 : Request datetime) (db : EmpApps.table) :
  Race.run utcoffset settings [Race.First; Race.First; Race.Second; Race.Second]
    (Race.Received req1) (Race.Received req2) db
  = (Race.Replied (fst (EmpApps.check_in utcoffset settings req1 db)),
     Race.Replied (fst (EmpApps.check_in utcoffset settings req2
                          (snd (EmpApps.check_in utcoffset settings req1 db)))),
     snd (EmpApps.check_in utcoffset settings req2
            (snd (EmpApps.check_in utcoffset settings req1 db)))).
Proof.
  cbn [Race.run].
  pose proof (run_alone_is_check_in utcoffset settings req1 db) as H1.
  destruct (Race.step utcoffset settings (Race.Received req1) db) as [h1a db1].
  rewrite H1.
  pose proof (run_alone_is_check_in utcoffset settings req2
                (snd (EmpApps.check_in utcoffset settings req1 db))) as H2.
  destruct (Race.step utcoffset settings (Race.Received req2) _) as [h2a db3].
  rewrite H2. reflexivity.
Qed.

Lemma run_serial_rev (utcoffset : Z) (settings : EmpApps.AttendanceSettings)
    (req1 req2 : Request datetime) (db : EmpApps.table) :
  Race.run utcoffset settings [Race.Second; Race.Second; Race.First; Race.First]
    (Race.Received req1) (Race.Received req2) db
  = (Race.Replied (fst (EmpApps.check_in utcoffset settings req1
                          (snd (EmpApps.check_in utcoffset settings req2 db)))),
     Race.Replied (fst (EmpApps.check_in utcoffset settings req2 db)),
     snd (EmpApps.check_in utcoffset settings req1
            (snd (EmpApps.check_in utcoffset settings req2 db)))).
Proof.
  cbn [Race.run].
  pose proof (run_alone_is_check_in utcoffset settings req2 db) as H2.
  destruct (Race.step utcoffset settings (Race.Received req2) db) as [h2a db1].
  rewrite H2.
  pose proof (run_alone_is_check_in utcoffset settings req1
                (snd (EmpApps.check_in utcoffset settings req2 db))) as H1.
  destruct (Race.step utcoffset settings (Race.Received req1) _) as [h1a db3].
  rewrite H1. reflexivity.
Qed.

(** C8, as the code has it. Of two check-in requests of one employee for
    one day, inside the window and with no check-in stored, at least one
    succeeds however their queries interleave, and when one request is
    served before the other begins exactly one succeeds and the other is
    refused with [AlreadyCheckedIn]. *)
Theorem race_outcomes (utcoffset : Z) (settings : EmpApps.AttendanceSettings)
    (req1 req2 : Request datetime) (db : EmpApps.table) (e : Z)
    (schedule : list Race.Worker) (h1 h2 : Race.Handler) (db' : EmpApps.table) :
  Race.racing settings req1 req2 db e ->
  Race.run utcoffset settings schedule (Race.Received req1) (Race.Received req2) db
  = (h1, h2, db') ->
  Race.finished h1 = true ->
  Race.finished h2 = true ->
  (Race.succeeded h1 = true \/ Race.succeeded h2 = true) /\
  (Race.serial schedule -> Race.exactly_one_succeeds h1 h2).
Proof.
  intros (Hp1 & He1 & Hw1 & Hp2 & He2 & Hw2 & Hday & Hopen) Hrun Hf1 Hf2. split.
  - refine (race_some_winner utcoffset settings req1 req2 e schedule
              Hp1 He1 Hw1 Hp2 He2 Hw2 Hday
              (Race.Received req1) (Race.Received req2) db _ h1 h2 db' Hrun Hf1 Hf2).
    right; right. split; [left; reflexivity|]. split; [left; reflexivity|]. exact Hopen.
  - intros [->| ->].
    + rewrite run_serial in Hrun. injection Hrun as <- <- <-. left. split.
      * simpl. apply (emp_apps_check_in_succeeds _ _ _ _ e); auto.
      * destruct (emp_apps_check_in_stamps utcoffset settings req1 db e Hp1 He1 Hw1)
          as (r & Hrow & Hci).
        rewrite (emp_apps_check_in_again utcoffset settings req2 _ e r); auto.
        rewrite Hday. exact Hrow.
    + rewrite run_serial_rev in Hrun. injection Hrun as <- <- <-. right. split.
      * destruct (emp_apps_check_in_stamps utcoffset settings req2 db e Hp2 He2 Hw2)
          as (r & Hrow & Hci).
        rewrite (emp_apps_check_in_again utcoffset settings req1 _ e r); auto.
        rewrite <- Hday. exact Hrow.
      * simpl. apply (emp_apps_check_in_succeeds _ _ _ _ e); auto.
        rewrite Hday. exact Hopen.
Qed.

Lemma race_outcomes_witness :
  (Race.succeeded (Race.Replied (EmpApps.CheckedIn (Sample.at_time 8 30 0) "present")) = true \/
   Race.succeeded (Race.Replied (EmpApps.Failed AlreadyCheckedIn)) = true) /\
  (Race.serial [Race.First; Race.First; Race.Second; Race.Second] ->
   Race.exactly_one_succeeds
     (Race.Replied (EmpApps.CheckedIn (Sample.at_time 8 30 0) "present"))
     (Race.Replied (EmpApps.Failed AlreadyCheckedIn))).
Proof.
  apply (race_outcomes 0 EmpApps.default_settings (Sample.post 8 30 0) (Sample.post 8 30 1)
           ∅ 1 [Race.First; Race.First; Race.Second; Race.Second]
           (Race.Replied (EmpApps.CheckedIn (Sample.at_time 8 30 0) "present"))
           (Race.Replied (EmpApps.Failed AlreadyCheckedIn))
           {[ (1, Sample.day) := Sample.checked_in 8 30 0 "present" ]}).
  - repeat split; vm_compute; reflexivity.
  - vm_compute. reflexivity.
  - reflexivity.
  - reflexivity.
Defined.

(** C8, as stated, fails: when both workers fetch the row before either
    saves, both requests succeed, and the second save overwrites the
    check-in time of the first. *)
Lemma race_both_succeed :
  ~ Race.one_winner 0 EmpApps.default_settings.
Proof.
  intros H.
  specialize (H (Sample.post 8 30 0) (Sample.post 8 30 1) ∅ 1
                [Race.First; Race.Second; Race.First; Race.Second]
                (Race.Replied (EmpApps.CheckedIn (Sample.at_time 8 30 0) "present"))
                (Race.Replied (EmpApps.CheckedIn (Sample.at_time 8 30 1) "present"))
                {[ (1, Sample.day) := Sample.checked_in 8 30 1 "present" ]}).
  destruct H as [[_ H]|[H _]]; try discriminate.
  - repeat split; vm_compute; reflexivity.
  - vm_compute. reflexivity.
  - reflexivity.
  - reflexivity.
Qed.

(** * Further properties *)

(** ** What the flags promise *)

(** X1. For a POST of an employee, the check-in view of emp_apps succeeds
    exactly when the [can_check_in] flag of [get_attendance_status] is
    true for the row of the day at that moment. *)
Theorem check_in_succeeds_iff_flag (utcoffset : Z) (settings : EmpApps.AttendanceSettings)
    (req : Request datetime) (db : EmpApps.table) (e : Z) :
  is_post req = true ->
  employee req = Some e ->
  EmpApps.success (fst (EmpApps.check_in utcoffset settings req db))
  = EmpApps.can_check_in settings (db !! (e, today req)) (now req).
Proof.
  intros Hpost He.
  unfold EmpApps.check_in, EmpApps.check_in_fetch, EmpApps.can_check_in.
  rewrite Hpost, He. simpl.
  destruct (EmpApps.is_check_in_allowed settings (now req)); simpl.
  - unfold EmpApps.get_or_create, EmpApps.check_in_update.
    destruct (db !! (e, today req)) as [r|]; simpl.
    + destruct (truthy (EmpApps.check_in_time r)); reflexivity.
    + reflexivity.
  - destruct (db !! (e, today req)); reflexivity.
Qed.

Lemma check_in_succeeds_iff_flag_witness :
  EmpApps.success (fst (EmpApps.check_in 0 EmpApps.default_settings (Sample.post 8 30 0) ∅))
  = EmpApps.can_check_in EmpApps.default_settings
      ((∅ : EmpApps.table) !! (1, today (Sample.post 8 30 0))) (now (Sample.post 8 30 0)).
Proof.
  apply (check_in_succeeds_iff_flag 0 EmpApps.default_settings (Sample.post 8 30 0) ∅ 1);
    reflexivity.
Defined.

(** X2. For a POST of an employee with a row for the day, the check-out
    view of emp_apps succeeds exactly when the [can_check_out] flag is
    true and the check-in is at least 30 minutes old; the flag alone does
    not promise success. *)
Theorem check_out_succeeds_iff_flag (utcoffset : Z) (settings : EmpApps.AttendanceSettings)
    (req : Request datetime) (db : EmpApps.table) (e : Z) (r : EmpApps.AttendanceRecord) :
  is_post req = true ->
  employee req = Some e ->
  db !! (e, today req) = Some r ->
  EmpApps.success (fst (EmpApps.check_out utcoffset settings req db)) = true <->
  EmpApps.can_check_out settings (Some r) (now req) = true /\
  exists ci, EmpApps.check_in_time r = Some ci /\ minutes 30 <= now req - ci.
Proof.
  intros Hpost He Hrow.
  unfold EmpApps.check_out, EmpApps.can_check_out.
  rewrite Hpost, He, Hrow. simpl.
  destruct (EmpApps.is_check_out_allowed settings (now req)); simpl.
  2:{ split; [discriminate|]. intros [? _]. discriminate. }
  destruct (EmpApps.check_in_time r) as [ci|] eqn:Hci; simpl.
  2:{ split; [discriminate|]. intros [? _]. discriminate. }
  destruct (truthy (EmpApps.check_out_time r)); simpl.
  { split; [discriminate|]. intros [? _]. discriminate. }
  destruct (now req - ci <? EmpApps.minimum_work_minutes * 60 * usec_per_second) eqn:Hlt.
  - apply Z.ltb_lt in Hlt. split; [discriminate|].
    intros [_ (ci' & [= <-] & Hge)]. exfalso. revert Hlt Hge.
    unfold minutes, usec_per_minute, EmpApps.minimum_work_minutes. lia.
  - apply Z.ltb_ge in Hlt.
    destruct (EmpApps.calculate_work_hours _) as [r2 hours]. simpl.
    split; [|reflexivity]. intros _. split; [reflexivity|].
    exists ci. split; [reflexivity|]. revert Hlt.
    unfold minutes, usec_per_minute, EmpApps.minimum_work_minutes. lia.
Qed.

Lemma check_out_succeeds_iff_flag_witness :
  EmpApps.success (fst (EmpApps.check_out 0 EmpApps.default_settings (Sample.post 17 5 0)
                          {[ (1, Sample.day) := Sample.checked_in 17 0 0 "present" ]})) = true <->
  EmpApps.can_check_out EmpApps.default_settings
    (Some (Sample.checked_in 17 0 0 "present")) (now (Sample.post 17 5 0)) = true /\
  exists ci, EmpApps.check_in_time (Sample.checked_in 17 0 0 "present") = Some ci /\
             minutes 30 <= now (Sample.post 17 5 0) - ci.
Proof.
  apply (check_out_succeeds_iff_flag 0 EmpApps.default_settings (Sample.post 17 5 0)
           {[ (1, Sample.day) := Sample.checked_in 17 0 0 "present" ]} 1
           (Sample.checked_in 17 0 0 "present")).
  - reflexivity.
  - reflexivity.
  - vm_compute. reflexivity.
Defined.

(** X3. In emp_attd, for a POST of an employee with a row for the day,
    each view succeeds exactly when the property of the same name on the
    row is true: [can_check_in] for check-in, [can_check_out] for
    check-out, which has no minimum duration. *)
Theorem emp_attd_succeeds_iff_flag (req : Request time) (db : EmpAttd.table) (e : Z)
    (r : EmpAttd.Attendance) :
  is_post req = true ->
  employee req = Some e ->
  db !! (e, today req) = Some r ->
  EmpAttd.success (fst (EmpAttd.check_in req db)) = EmpAttd.can_check_in r (now req) /\
  EmpAttd.success (fst (EmpAttd.check_out req db)) = EmpAttd.can_check_out r (now req).
Proof.
  intros Hpost He Hrow. split.
  - unfold EmpAttd.check_in, EmpAttd.can_check_in. rewrite Hpost, He. simpl.
    destruct ((mk_time 8 0 <=? now req) && (now req <=? mk_time 9 0)); simpl; [|reflexivity].
    unfold EmpAttd.get_or_create. rewrite Hrow. simpl.
    destruct (truthy (EmpAttd.check_in_time r)); reflexivity.
  - unfold EmpAttd.check_out, EmpAttd.can_check_out. rewrite Hpost, He. simpl.
    destruct ((mk_time 17 0 <=? now req) && (now req <=? mk_time 18 0)); simpl; [|reflexivity].
    rewrite Hrow.
    destruct (EmpAttd.check_in_time r) as [ci|]; simpl; [|reflexivity].
    destruct (truthy (EmpAttd.check_out_time r)); reflexivity.
Qed.

Lemma emp_attd_succeeds_iff_flag_witness :
  EmpAttd.success (fst (EmpAttd.check_in (Sample.post_local 17 5 0)
                          {[ (1, Sample.day) := Sample.checked_in_local 8 0 0 ]}))
  = EmpAttd.can_check_in (Sample.checked_in_local 8 0 0) (now (Sample.post_local 17 5 0)) /\
  EmpAttd.success (fst (EmpAttd.check_out (Sample.post_local 17 5 0)
                          {[ (1, Sample.day) := Sample.checked_in_local 8 0 0 ]}))
  = EmpAttd.can_check_out (Sample.checked_in_local 8 0 0) (now (Sample.post_local 17 5 0)).
Proof.
  apply (emp_attd_succeeds_iff_flag (Sample.post_local 17 5 0)
           {[ (1, Sample.day) := Sample.checked_in_local 8 0 0 ]} 1
           (Sample.checked_in_local 8 0 0)).
  - reflexivity.
  - reflexivity.
  - vm_compute. reflexivity.
Defined.

(** ** Only the row of the day *)

(** X4. No view touches another row: after a check-in or a check-out of
    either application, every row other than that of the employee and
    day of the request is as it was, present or missing. *)
Theorem views_touch_one_row (utcoffset : Z) (settings : EmpApps.AttendanceSettings)
    (req : Request datetime) (db : EmpApps.table)
    (req' : Request time) (db' : EmpAttd.table) (key : Z * date) :
  (employee req = None \/ exists e, employee req = Some e /\ key <> (e, today req)) ->
  (employee req' = None \/ exists e, employee req' = Some e /\ key <> (e, today req')) ->
  snd (EmpApps.check_in utcoffset settings req db) !! key = db !! key /\
  snd (EmpApps.check_out utcoffset settings req db) !! key = db !! key /\
  snd (EmpAttd.check_in req' db') !! key = db' !! key /\
  snd (EmpAttd.check_out req' db') !! key = db' !! key.
Proof.
  intros Hk Hk'. repeat split.
  - unfold EmpApps.check_in, EmpApps.check_in_fetch.
    destruct (is_post req); [|done]. simpl.
    destruct (employee req) as [e|]; [|done].
    destruct Hk as [?|(e0 & [= <-] & Hne)]; [done|].
    destruct (EmpApps.is_check_in_allowed settings (now req)); [|done]. simpl.
    unfold EmpApps.get_or_create, EmpApps.check_in_update, EmpApps.save.
    destruct (db !! (e, today req)) as [r|]; simpl.
    + destruct (truthy (EmpApps.check_in_time r)); simpl; [done|].
      by rewrite lookup_insert_ne.
    + by rewrite !lookup_insert_ne.
  - unfold EmpApps.check_out.
    destruct (is_post req); [|done]. simpl.
    destruct (employee req) as [e|]; [|done].
    destruct Hk as [?|(e0 & [= <-] & Hne)]; [done|].
    destruct (EmpApps.is_check_out_allowed settings (now req)); [|done]. simpl.
    destruct (db !! (e, today req)) as [r|]; [|done].
    destruct (EmpApps.check_in_time r) as [ci|]; [|done].
    destruct (truthy (EmpApps.check_out_time r)); [done|].
    destruct (_ <? _); [done|].
    destruct (EmpApps.calculate_work_hours _) as [r2 hours].
    unfold EmpApps.save. simpl. by rewrite lookup_insert_ne.
  - unfold EmpAttd.check_in.
    destruct (is_post req'); [|done]. simpl.
    destruct (employee req') as [e|]; [|done].
    destruct Hk' as [?|(e0 & [= <-] & Hne)]; [done|].
    destruct (negb _); [done|].
    unfold EmpAttd.get_or_create.
    destruct (db' !! (e, today req')) as [r|]; simpl.
    + destruct (truthy (EmpAttd.check_in_time r)); simpl; [done|].
      by rewrite lookup_insert_ne.
    + by rewrite lookup_insert_ne.
  - unfold EmpAttd.check_out.
    destruct (is_post req'); [|done]. simpl.
    destruct (employee req') as [e|]; [|done].
    destruct Hk' as [?|(e0 & [= <-] & Hne)]; [done|].
    destruct (negb _); [done|].
    destruct (db' !! (e, today req')) as [r|]; [|done].
    destruct (EmpAttd.check_in_time r) as [ci|]; [|done].
    destruct (truthy (EmpAttd.check_out_time r)); [done|].
    simpl. by rewrite lookup_insert_ne.
Qed.

Lemma views_touch_one_row_witness :
  snd (EmpApps.check_in 0 EmpApps.default_settings (Sample.post 8 30 0)
         {[ (2, Sample.day) := Sample.marked "absent" ]}) !! (2, Sample.day)
  = ({[ (2, Sample.day) := Sample.marked "absent" ]} : EmpApps.table) !! (2, Sample.day) /\
  snd (EmpApps.check_out 0 EmpApps.default_settings (Sample.post 8 30 0)
         {[ (2, Sample.day) := Sample.marked "absent" ]}) !! (2, Sample.day)
  = ({[ (2, Sample.day) := Sample.marked "absent" ]} : EmpApps.table) !! (2, Sample.day) /\
  snd (EmpAttd.check_in (Sample.post_local 8 30 0) ∅) !! (2, Sample.day)
  = (∅ : EmpAttd.table) !! (2, Sample.day) /\
  snd (EmpAttd.check_out (Sample.post_local 8 30 0) ∅) !! (2, Sample.day)
  = (∅ : EmpAttd.table) !! (2, Sample.day).
Proof.
  apply (views_touch_one_row 0 EmpApps.default_settings (Sample.post 8 30 0)
           {[ (2, Sample.day) := Sample.marked "absent" ]}
           (Sample.post_local 8 30 0) ∅ (2, Sample.day)).
  - right. exists 1. split; [reflexivity|]. discriminate.
  - right. exists 1. split; [reflexivity|]. discriminate.
Defined.

(** ** Lateness on the clock *)

Lemma is_late_time_of (utcoffset : Z) (r : EmpApps.AttendanceRecord) (standard_time : time)
    (ci : datetime) :
  EmpApps.check_in_time r = Some ci ->
  EmpApps.is_late utcoffset r standard_time = (standard_time - utcoffset <? time_of ci).
Proof.
  intros Hci. unfold EmpApps.is_late, make_aware, combine, date_of, time_of. rewrite Hci.
  assert (Hday : 0 < usec_per_day) by reflexivity.
  pose proof (Z.div_mod ci usec_per_day ltac:(lia)) as Hdm.
  destruct (standard_time - utcoffset <? ci mod usec_per_day) eqn:H.
  - apply Z.ltb_lt in H. apply Z.ltb_lt. lia.
  - apply Z.ltb_ge in H. apply Z.ltb_ge. lia.
Qed.

(** X5. A successful check-in of emp_apps stores the moment of the
    request and the status 'late' exactly when the UTC time of day of
    that moment is after the standard check-in time, cut to the minute
    and moved by the offset of the active time zone; otherwise
    'present'.  The window test of the same request reads the UTC time
    of day unmoved. *)
Theorem check_in_status_on_the_clock (utcoffset : Z) (settings : EmpApps.AttendanceSettings)
    (req : Request datetime) (db : EmpApps.table) (e : Z) :
  employee req = Some e ->
  EmpApps.success (fst (EmpApps.check_in utcoffset settings req db)) = true ->
  (EmpApps.check_in_start_time settings <= time_of (now req)
     <= EmpApps.check_in_end_time settings) /\
  exists r, snd (EmpApps.check_in utcoffset settings req db) !! (e, today req) = Some r /\
    EmpApps.check_in_time r = Some (now req) /\
    EmpApps.status r = Site.status_at utcoffset settings (now req) /\
    fst (EmpApps.check_in utcoffset settings req db)
    = EmpApps.CheckedIn (now req) (Site.status_at utcoffset settings (now req)).
Proof.
  intros He Hok. split.
  - revert Hok. unfold EmpApps.check_in, EmpApps.check_in_fetch. rewrite He.
    destruct (is_post req); [|discriminate]. simpl.
    unfold EmpApps.is_check_in_allowed.
    destruct (_ && _) eqn:Hwin; [|discriminate]. intros _.
    apply andb_true_iff in Hwin as [H1 H2]. apply Z.leb_le in H1, H2. lia.
  - destruct (emp_apps_check_in_status utcoffset settings req db e He Hok)
      as (r & Hrow & Hci & Hst).
    assert (Hat : EmpApps.status r = Site.status_at utcoffset settings (now req)).
    { rewrite Hst. unfold Site.status_at.
      rewrite <- (is_late_time_of utcoffset r _ (now req) Hci).
      unfold EmpApps.is_late. rewrite Hci. reflexivity. }
    exists r. repeat split; auto.
    revert Hok Hrow. unfold EmpApps.check_in, EmpApps.check_in_fetch. rewrite He.
    destruct (is_post req); [|discriminate]. simpl.
    destruct (EmpApps.is_check_in_allowed settings (now req)); [|discriminate]. simpl.
    unfold EmpApps.get_or_create.
    destruct (db !! (e, today req)) as [r0|]; simpl;
      unfold EmpApps.check_in_update, EmpApps.save;
      try (destruct (truthy (EmpApps.check_in_time r0)); simpl; [discriminate|]);
      intros _; rewrite lookup_insert_eq; intros [= Hr]; rewrite Hr, Hci, Hat; reflexivity.
Qed.

Lemma check_in_status_on_the_clock_witness :
  (EmpApps.check_in_start_time EmpApps.default_settings <= time_of (now (Sample.post 9 0 30))
     <= EmpApps.check_in_end_time EmpApps.default_settings) /\
  exists r, snd (EmpApps.check_in 0 EmpApps.default_settings (Sample.post 9 0 30) ∅)
              !! (1, today (Sample.post 9 0 30)) = Some r /\
    EmpApps.check_in_time r = Some (now (Sample.post 9 0 30)) /\
    EmpApps.status r = Site.status_at 0 EmpApps.default_settings (now (Sample.post 9 0 30)) /\
    fst (EmpApps.check_in 0 EmpApps.default_settings (Sample.post 9 0 30) ∅)
    = EmpApps.CheckedIn (now (Sample.post 9 0 30))
        (Site.status_at 0 EmpApps.default_settings (now (Sample.post 9 0 30))).
Proof.
  apply (check_in_status_on_the_clock 0 EmpApps.default_settings (Sample.post 9 0 30) ∅ 1).
  - reflexivity.
  - vm_compute. reflexivity.
Defined.

(** ** What a successful check-out stores *)

Lemma before_save_notes (utcoffset : Z) (r : EmpApps.AttendanceRecord) :
  EmpApps.notes (EmpApps.before_save utcoffset r) = EmpApps.notes r.
Proof.
  unfold EmpApps.before_save.
  destruct (calculate_work_hours_fields r) as (_ & _ & _ & Hn).
  destruct (truthy (EmpApps.check_in_time r) && truthy (EmpApps.check_out_time r));
    (destruct (_ && _); [destruct (EmpApps.is_late _ _ _)|]); simpl; auto.
Qed.

(** X6. A successful check-out of emp_apps leaves, in the row of the day,
    the check-in time and the notes as they were, the moment of the
    request as check-out time, and as work hours the value that the reply
    carries; the status stays unless it was 'absent'. *)
Theorem check_out_stores (utcoffset : Z) (settings : EmpApps.AttendanceSettings)
    (req : Request datetime) (db : EmpApps.table) (e : Z) :
  employee req = Some e ->
  EmpApps.success (fst (EmpApps.check_out utcoffset settings req db)) = true ->
  exists r r' ci,
    db !! (e, today req) = Some r /\
    EmpApps.check_in_time r = Some ci /\
    snd (EmpApps.check_out utcoffset settings req db) !! (e, today req) = Some r' /\
    EmpApps.check_in_time r' = Some ci /\
    EmpApps.check_out_time r' = Some (now req) /\
    EmpApps.notes r' = EmpApps.notes r /\
    (EmpApps.status r <> "absent" -> EmpApps.status r' = EmpApps.status r) /\
    fst (EmpApps.check_out utcoffset settings req db)
    = EmpApps.CheckedOut (now req)
        (PyFloat.py_round 100 (Reach.hours_between ci (now req))) /\
    EmpApps.work_hours r'
    = Some (PyFloat.py_round 100 (Reach.hours_between ci (now req))).
Proof.
  intros He. unfold EmpApps.check_out. rewrite He.
  destruct (is_post req); [|discriminate]. simpl.
  destruct (EmpApps.is_check_out_allowed settings (now req)); [|discriminate]. simpl.
  destruct (db !! (e, today req)) as [r|]; [|discriminate].
  destruct (EmpApps.check_in_time r) as [ci|] eqn:Hci; [|discriminate].
  destruct (truthy (EmpApps.check_out_time r)); [discriminate|].
  destruct (_ <? _); [discriminate|].
  unfold EmpApps.calculate_work_hours. simpl. rewrite Hci. simpl. intros _.
  set (x := EmpApps.set_work_hours _ _).
  assert (Hxi : EmpApps.check_in_time x = Some ci) by exact Hci.
  assert (Hxo : EmpApps.check_out_time x = Some (now req)) by reflexivity.
  destruct (before_save_stamps utcoffset x) as [Ei Eo].
  exists r, (EmpApps.before_save utcoffset x), ci. rewrite lookup_insert_eq.
  split; [reflexivity|]. split; [exact Hci|]. split; [reflexivity|].
  split; [congruence|]. split; [congruence|].
  split; [apply (before_save_notes utcoffset x)|].
  split; [intros Hst; apply (before_save_status utcoffset x); exact Hst|].
  split; [reflexivity|].
  pose proof (before_save_agree utcoffset x) as Hag.
  unfold Reach.work_hours_agree in Hag. rewrite Ei, Eo, Hxi, Hxo in Hag.
  apply Hag. intros [?|?]; discriminate.
Qed.

Lemma check_out_stores_witness :
  exists r r' ci,
    ({[ (1, Sample.day) := Sample.checked_in 9 0 0 "present" ]} : EmpApps.table)
      !! (1, today (Sample.post 17 30 0)) = Some r /\
    EmpApps.check_in_time r = Some ci /\
    snd (EmpApps.check_out 0 EmpApps.default_settings (Sample.post 17 30 0)
           {[ (1, Sample.day) := Sample.checked_in 9 0 0 "present" ]})
      !! (1, today (Sample.post 17 30 0)) = Some r' /\
    EmpApps.check_in_time r' = Some ci /\
    EmpApps.check_out_time r' = Some (now (Sample.post 17 30 0)) /\
    EmpApps.notes r' = EmpApps.notes r /\
    (EmpApps.status r <> "absent" -> EmpApps.status r' = EmpApps.status r) /\
    fst (EmpApps.check_out 0 EmpApps.default_settings (Sample.post 17 30 0)
           {[ (1, Sample.day) := Sample.checked_in 9 0 0 "present" ]})
    = EmpApps.CheckedOut (now (Sample.post 17 30 0))
        (PyFloat.py_round 100 (Reach.hours_between ci (now (Sample.post 17 30 0)))) /\
    EmpApps.work_hours r'
    = Some (PyFloat.py_round 100 (Reach.hours_between ci (now (Sample.post 17 30 0)))).
Proof.
  apply (check_out_stores 0 EmpApps.default_settings (Sample.post 17 30 0)
           {[ (1, Sample.day) := Sample.checked_in 9 0 0 "present" ]} 1).
  - reflexivity.
  - vm_compute. reflexivity.
Defined.

(** ** The day is closed after check-out *)

Lemma emp_attd_check_out_stamps (req : Request time) (db : EmpAttd.table) (e : Z) :
  employee req = Some e ->
  EmpAttd.success (fst (EmpAttd.check_out req db)) = true ->
  exists r, snd (EmpAttd.check_out req db) !! (e, today req) = Some r /\
    is_Some (EmpAttd.check_in_time r) /\ EmpAttd.check_out_time r = Some (now req).
Proof.
  intros He. unfold EmpAttd.check_out. rewrite He.
  destruct (is_post req); [|discriminate]. simpl.
  destruct (negb _); [discriminate|].
  destruct (db !! (e, today req)) as [r|]; [|discriminate].
  destruct (EmpAttd.check_in_time r) as [ci|] eqn:Hci; [|discriminate].
  destruct (truthy (EmpAttd.check_out_time r)); [discriminate|].
  simpl. intros _. eexists. rewrite lookup_insert_eq. split; [reflexivity|].
  simpl. eauto.
Qed.

Lemma emp_apps_check_out_stamps (utcoffset : Z) (settings : EmpApps.AttendanceSettings)
    (req : Request datetime) (db : EmpApps.table) (e : Z) :
  employee req = Some e ->
  EmpApps.success (fst (EmpApps.check_out utcoffset settings req db)) = true ->
  exists r, snd (EmpApps.check_out utcoffset settings req db) !! (e, today req) = Some r /\
    is_Some (EmpApps.check_in_time r) /\ EmpApps.check_out_time r = Some (now req).
Proof.
  intros He. unfold EmpApps.check_out. rewrite He.
  destruct (is_post req); [|discriminate]. simpl.
  destruct (EmpApps.is_check_out_allowed settings (now req)); [|discriminate]. simpl.
  destruct (db !! (e, today req)) as [r|]; [|discriminate].
  destruct (EmpApps.check_in_time r) as [ci|] eqn:Hci; [|discriminate].
  destruct (truthy (EmpApps.check_out_time r)); [discriminate|].
  destruct (_ <? _); [discriminate|].
  unfold EmpApps.calculate_work_hours. simpl. rewrite Hci. simpl. intros _.
  eexists. rewrite lookup_insert_eq. split; [reflexivity|].
  match goal with |- context [EmpApps.before_save _ ?x] =>
    destruct (before_save_stamps utcoffset x) as [-> ->] end.
  simpl. rewrite Hci. eauto.
Qed.

(** X7. After a successful check-out the day is closed, in both
    applications: any later check-out of the same employee and day
    inside the check-out window is refused with [AlreadyCheckedOut], any
    later check-in inside the check-in window with [AlreadyCheckedIn],
    and neither changes the table.  For emp_apps the row had no work
    hours before and the check-out comes less than 99 hours after the
    check-in, so that the work hours stored fit the four digits of the
    column and the row can be read again. *)
Theorem closed_after_check_out (utcoffset : Z) (settings : EmpApps.AttendanceSettings)
    (req req2 : Request datetime) (db : EmpApps.table) (e : Z)
    (r : EmpApps.AttendanceRecord) (ci : datetime)
    (req' req2' : Request time) (db' : EmpAttd.table) (e' : Z) :
  employee req = Some e ->
  db !! (e, today req) = Some r ->
  EmpApps.check_in_time r = Some ci ->
  EmpApps.work_hours r = None ->
  now req - ci < 99 * usec_per_hour ->
  EmpApps.success (fst (EmpApps.check_out utcoffset settings req db)) = true ->
  is_post req2 = true -> employee req2 = Some e -> today req2 = today req ->
  employee req' = Some e' ->
  EmpAttd.success (fst (EmpAttd.check_out req' db')) = true ->
  is_post req2' = true -> employee req2' = Some e' -> today req2' = today req' ->
  (EmpApps.is_check_out_allowed settings (now req2) = true ->
   EmpApps.check_out utcoffset settings req2
     (snd (EmpApps.check_out utcoffset settings req db))
   = (EmpApps.Failed AlreadyCheckedOut, snd (EmpApps.check_out utcoffset settings req db))) /\
  (EmpApps.is_check_in_allowed settings (now req2) = true ->
   EmpApps.check_in utcoffset settings req2
     (snd (EmpApps.check_out utcoffset settings req db))
   = (EmpApps.Failed AlreadyCheckedIn, snd (EmpApps.check_out utcoffset settings req db))) /\
  (mk_time 17 0 <= now req2' <= mk_time 18 0 ->
   EmpAttd.check_out req2' (snd (EmpAttd.check_out req' db'))
   = (EmpAttd.Failed AlreadyCheckedOut, snd (EmpAttd.check_out req' db'))) /\
  (mk_time 8 0 <= now req2' <= mk_time 9 0 ->
   EmpAttd.check_in req2' (snd (EmpAttd.check_out req' db'))
   = (EmpAttd.Failed AlreadyCheckedIn, snd (EmpAttd.check_out req' db'))).
Proof.
  intros He _ _ _ _ Hok Hp2 He2 Hd2 He' Hok' Hp2' He2' Hd2'.
  destruct (emp_apps_check_out_stamps utcoffset settings req db e He Hok)
    as (r1 & Hrow & [ci1 Hci] & Hco).
  destruct (emp_attd_check_out_stamps req' db' e' He' Hok') as (r' & Hrow' & [ci' Hci'] & Hco').
  rewrite <- Hd2 in Hrow. rewrite <- Hd2' in Hrow'.
  repeat split.
  - intros Hwin. unfold EmpApps.check_out at 1.
    rewrite Hp2, He2, Hwin. simpl. rewrite Hrow, Hci, Hco. reflexivity.
  - intros Hwin. apply (emp_apps_check_in_again utcoffset settings req2 _ e r1); eauto.
  - intros [H1 H2]. apply Z.leb_le in H1, H2. unfold EmpAttd.check_out at 1.
    rewrite Hp2', He2'. simpl. rewrite H1, H2. simpl. rewrite Hrow', Hci', Hco'. reflexivity.
  - intros Hwin. apply (emp_attd_check_in_again req2' _ e' r'); eauto.
Qed.

Lemma closed_after_check_out_witness :
  (EmpApps.is_check_out_allowed EmpApps.default_settings (now (Sample.post 18 0 0)) = true ->
   EmpApps.check_out 0 EmpApps.default_settings (Sample.post 18 0 0)
     (snd (EmpApps.check_out 0 EmpApps.default_settings (Sample.post 17 30 0)
             {[ (1, Sample.day) := Sample.checked_in 9 0 0 "present" ]}))
   = (EmpApps.Failed AlreadyCheckedOut,
      snd (EmpApps.check_out 0 EmpApps.default_settings (Sample.post 17 30 0)
             {[ (1, Sample.day) := Sample.checked_in 9 0 0 "present" ]}))) /\
  (EmpApps.is_check_in_allowed EmpApps.default_settings (now (Sample.post 18 0 0)) = true ->
   EmpApps.check_in 0 EmpApps.default_settings (Sample.post 18 0 0)
     (snd (EmpApps.check_out 0 EmpApps.default_settings (Sample.post 17 30 0)
             {[ (1, Sample.day) := Sample.checked_in 9 0 0 "present" ]}))
   = (EmpApps.Failed AlreadyCheckedIn,
      snd (EmpApps.check_out 0 EmpApps.default_settings (Sample.post 17 30 0)
             {[ (1, Sample.day) := Sample.checked_in 9 0 0 "present" ]}))) /\
  (mk_time 17 0 <= now (Sample.post_local 18 0 0) <= mk_time 18 0 ->
   EmpAttd.check_out (Sample.post_local 18 0 0)
     (snd (EmpAttd.check_out (Sample.post_local 17 30 0)
             {[ (1, Sample.day) := Sample.checked_in_local 8 0 0 ]}))
   = (EmpAttd.Failed AlreadyCheckedOut,
      snd (EmpAttd.check_out (Sample.post_local 17 30 0)
             {[ (1, Sample.day) := Sample.checked_in_local 8 0 0 ]}))) /\
  (mk_time 8 0 <= now (Sample.post_local 18 0 0) <= mk_time 9 0 ->
   EmpAttd.check_in (Sample.post_local 18 0 0)
     (snd (EmpAttd.check_out (Sample.post_local 17 30 0)
             {[ (1, Sample.day) := Sample.checked_in_local 8 0 0 ]}))
   = (EmpAttd.Failed AlreadyCheckedIn,
      snd (EmpAttd.check_out (Sample.post_local 17 30 0)
             {[ (1, Sample.day) := Sample.checked_in_local 8 0 0 ]}))).
Proof.
  apply (closed_after_check_out 0 EmpApps.default_settings
           (Sample.post 17 30 0) (Sample.post 18 0 0)
           {[ (1, Sample.day) := Sample.checked_in 9 0 0 "present" ]} 1
           (Sample.checked_in 9 0 0 "present") (Sample.at_time 9 0 0)
           (Sample.post_local 17 30 0) (Sample.post_local 18 0 0)
           {[ (1, Sample.day) := Sample.checked_in_local 8 0 0 ]} 1);
    try reflexivity; vm_compute; reflexivity.
Defined.

(** ** Rows as the views leave them *)

Lemma status_at_not_absent (utcoffset : Z) (settings : EmpApps.AttendanceSettings)
    (ci : datetime) :
  Site.status_at utcoffset settings ci <> "absent".
Proof. unfold Site.status_at. destruct (_ <? _); discriminate. Qed.

Lemma before_save_well_formed (utcoffset : Z) (settings : EmpApps.AttendanceSettings)
    (r : EmpApps.AttendanceRecord) :
  Site.well_formed utcoffset settings r ->
  Site.well_formed utcoffset settings (EmpApps.before_save utcoffset r).
Proof.
  unfold Site.well_formed. intros Hwf.
  destruct (before_save_stamps utcoffset r) as [-> ->].
  destruct (EmpApps.check_in_time r) as [ci|] eqn:Hci.
  - destruct Hwf as [Hst Hco]. split; [|exact Hco].
    rewrite before_save_status; [exact Hst|].
    rewrite Hst. apply status_at_not_absent.
  - split; [|tauto]. destruct Hwf as [Hst Hco].
    unfold EmpApps.before_save. rewrite Hci. simpl. rewrite Hci. simpl. exact Hst.
Qed.

Lemma checked_in_well_formed (utcoffset : Z) (settings : EmpApps.AttendanceSettings)
    (r0 : EmpApps.AttendanceRecord) (t : datetime) :
  EmpApps.check_in_time r0 = None ->
  EmpApps.check_out_time r0 = None ->
  Site.well_formed utcoffset settings
    (if EmpApps.is_late utcoffset (EmpApps.set_check_in_time (Some t) r0)
          (hhmm (EmpApps.standard_check_in_time settings))
     then EmpApps.set_status "late" (EmpApps.set_check_in_time (Some t) r0)
     else EmpApps.set_status "present" (EmpApps.set_check_in_time (Some t) r0)).
Proof.
  intros Hci Hco.
  rewrite (is_late_time_of utcoffset (EmpApps.set_check_in_time (Some t) r0) _ t eq_refl).
  unfold Site.well_formed, Site.status_at.
  destruct (_ <? _) eqn:Hlt; simpl; rewrite Hco, Hlt; auto.
Qed.

Lemma site_rows_well_formed (utcoffset : Z) (settings : EmpApps.AttendanceSettings)
    (db : EmpApps.table) :
  Site.reachable utcoffset settings db ->
  forall (key : Z * date) (r : EmpApps.AttendanceRecord),
    db !! key = Some r -> Site.well_formed utcoffset settings r.
Proof.
  induction 1 as [|req db Hreach IH|req db Hreach IH|req db Hreach IH
                  |key0 r0 db Hreach IH Hrow0]; intros key r Hrow.
  - rewrite lookup_empty in Hrow. discriminate.
  - revert Hrow. unfold Site.attendance_dashboard.
    destruct (employee req) as [e|]; [|apply IH].
    unfold EmpApps.get_or_create.
    destruct (db !! (e, today req)) as [r1|] eqn:Hrow1; simpl; [apply IH|].
    destruct (decide ((e, today req) = key)) as [<-|Hne].
    + rewrite lookup_insert_eq. intros [= <-]. split; reflexivity.
    + rewrite lookup_insert_ne by exact Hne. apply IH.
  - revert Hrow. unfold EmpApps.check_in, EmpApps.check_in_fetch.
    destruct (is_post req); [|apply IH]. simpl.
    destruct (employee req) as [e|]; [|apply IH].
    destruct (EmpApps.is_check_in_allowed settings (now req)); [|apply IH]. simpl.
    unfold EmpApps.get_or_create, EmpApps.check_in_update, EmpApps.save.
    destruct (db !! (e, today req)) as [r1|] eqn:Hrow1; simpl.
    + destruct (EmpApps.check_in_time r1) as [t|] eqn:Hci; simpl; [apply IH|].
      destruct (decide ((e, today req) = key)) as [<-|Hne].
      * rewrite lookup_insert_eq. intros [= <-]. apply before_save_well_formed.
        pose proof (IH _ _ Hrow1) as Hwf. unfold Site.well_formed in Hwf.
        rewrite Hci in Hwf. apply checked_in_well_formed; tauto.
      * rewrite lookup_insert_ne by exact Hne. apply IH.
    + destruct (decide ((e, today req) = key)) as [<-|Hne].
      * rewrite lookup_insert_eq. intros [= <-]. apply before_save_well_formed.
        apply checked_in_well_formed; reflexivity.
      * rewrite !lookup_insert_ne by exact Hne. apply IH.
  - revert Hrow. unfold EmpApps.check_out.
    destruct (is_post req); [|apply IH]. simpl.
    destruct (employee req) as [e|]; [|apply IH].
    destruct (EmpApps.is_check_out_allowed settings (now req)); [|apply IH]. simpl.
    destruct (db !! (e, today req)) as [r1|] eqn:Hrow1; [|apply IH].
    destruct (EmpApps.check_in_time r1) as [ci|] eqn:Hci; [|apply IH].
    destruct (truthy (EmpApps.check_out_time r1)); [apply IH|].
    destruct (_ <? _) eqn:Hlt; [apply IH|].
    unfold EmpApps.calculate_work_hours. simpl. rewrite Hci. simpl.
    destruct (decide ((e, today req) = key)) as [<-|Hne].
    + rewrite lookup_insert_eq. intros [= <-]. apply before_save_well_formed.
      pose proof (IH _ _ Hrow1) as Hwf. unfold Site.well_formed in *. simpl.
      rewrite Hci in *. split; [tauto|].
      apply Z.ltb_ge in Hlt. revert Hlt. unfold minutes, usec_per_minute. lia.
    + rewrite lookup_insert_ne by exact Hne. apply IH.
  - revert Hrow. unfold EmpApps.save. simpl.
    destruct (decide (key0 = key)) as [<-|Hne].
    + rewrite lookup_insert_eq. intros [= <-]. apply before_save_well_formed. eauto.
    + rewrite lookup_insert_ne by exact Hne. apply IH.
Qed.

(** X8. In every table that the dashboard, the check-in and check-out
    views and saving a stored row again build, a row with a check-out
    time has a check-in time, at least 30 minutes earlier. *)
Theorem stamps_thirty_minutes_apart (utcoffset : Z) (settings : EmpApps.AttendanceSettings)
    (db : EmpApps.table) (key : Z * date) (r : EmpApps.AttendanceRecord) (co : datetime) :
  Site.reachable utcoffset settings db ->
  db !! key = Some r ->
  EmpApps.check_out_time r = Some co ->
  exists ci, EmpApps.check_in_time r = Some ci /\ minutes 30 <= co - ci.
Proof.
  intros Hreach Hrow Hco.
  pose proof (site_rows_well_formed _ _ _ Hreach _ _ Hrow) as Hwf.
  unfold Site.well_formed in Hwf.
  destruct (EmpApps.check_in_time r) as [ci|].
  - exists ci. rewrite Hco in Hwf. split; [reflexivity|]. apply Hwf.
  - destruct Hwf as [_ Hn]. congruence.
Qed.

(** X9. In every such table a row has the status 'absent' exactly when it
    has no check-in time, and otherwise the status that its check-in
    time had on the clock, 'late' or 'present'. *)
Theorem status_follows_check_in (utcoffset : Z) (settings : EmpApps.AttendanceSettings)
    (db : EmpApps.table) (key : Z * date) (r : EmpApps.AttendanceRecord) :
  Site.reachable utcoffset settings db ->
  db !! key = Some r ->
  (EmpApps.status r = "absent" <-> EmpApps.check_in_time r = None) /\
  forall ci, EmpApps.check_in_time r = Some ci ->
    EmpApps.status r = Site.status_at utcoffset settings ci.
Proof.
  intros Hreach Hrow.
  pose proof (site_rows_well_formed _ _ _ Hreach _ _ Hrow) as Hwf.
  unfold Site.well_formed in Hwf.
  destruct (EmpApps.check_in_time r) as [ci|].
  - destruct Hwf as [Hst _]. split.
    + split; [|discriminate]. rewrite Hst. intros H.
      exfalso. exact (status_at_not_absent _ _ _ H).
    + intros ci' [= <-]. exact Hst.
  - destruct Hwf as [Hst _]. split; [tauto|]. discriminate.
Qed.

Lemma stamps_thirty_minutes_apart_witness :
  exists ci,
    EmpApps.check_in_time
      (EmpApps.mkAttendanceRecord (Some (Sample.at_time 9 0 0))
         (Some (Sample.at_time 17 30 0)) "present" (Some 850) "") = Some ci /\
    minutes 30 <= Sample.at_time 17 30 0 - ci.
Proof.
  apply (stamps_thirty_minutes_apart 0 EmpApps.default_settings
           (snd (EmpApps.check_out 0 EmpApps.default_settings (Sample.post 17 30 0)
                   (snd (EmpApps.check_in 0 EmpApps.default_settings
                           (Sample.post 9 0 0) ∅))))
           (1, Sample.day)).
  - apply Site.reach_check_out, Site.reach_check_in, Site.reach_empty.
  - vm_compute. reflexivity.
  - reflexivity.
Defined.

Lemma status_follows_check_in_witness :
  (EmpApps.status EmpApps.new_record = "absent" <->
   EmpApps.check_in_time EmpApps.new_record = None) /\
  forall ci, EmpApps.check_in_time EmpApps.new_record = Some ci ->
    EmpApps.status EmpApps.new_record = Site.status_at 0 EmpApps.default_settings ci.
Proof.
  apply (status_follows_check_in 0 EmpApps.default_settings
           (snd (Site.attendance_dashboard (Sample.post 6 0 0) ∅)) (1, Sample.day)).
  - apply Site.reach_dashboard, Site.reach_empty.
  - vm_compute. reflexivity.
Defined.

(** ** Years of service *)

(** X10. The years of service that [employee_profile] shows are the full
    years since the hire date: the hire date moved on by that many years
    is not after today, and moved on by one more it is. *)
Theorem years_of_service_full_years (today hire_date : Site.ymd) :
  Site.ymd_le (Site.add_years (Site.years_of_service today hire_date) hire_date) today /\
  ~ Site.ymd_le
      (Site.add_years (Site.years_of_service today hire_date + 1) hire_date) today.
Proof.
  unfold Site.years_of_service, Site.ymd_le, Site.add_years. simpl.
  destruct (Site.month today <? Site.month hire_date) eqn:Hm; simpl.
  - apply Z.ltb_lt in Hm. lia.
  - apply Z.ltb_ge in Hm.
    destruct (Site.month today =? Site.month hire_date) eqn:He; simpl.
    + apply Z.eqb_eq in He.
      destruct (Site.day today <? Site.day hire_date) eqn:Hd.
      * apply Z.ltb_lt in Hd. lia.
      * apply Z.ltb_ge in Hd. lia.
    + apply Z.eqb_neq in He. lia.
Qed.

(** ** Work hours of whole minutes *)

Lemma all_from_spec (depth : nat) (p : Z -> bool) :
  forall lo : Z,
    Exhaust.all_from depth lo p = true ->
    forall s : Z, lo <= s < lo + 2 ^ Z.of_nat depth -> p s = true.
Proof.
  induction depth as [|d IH]; intros lo Hall s Hs.
  - simpl in *. assert (s = lo) as -> by lia. exact Hall.
  - cbn [Exhaust.all_from] in Hall. apply andb_true_iff in Hall as [H1 H2].
    assert (Hpow : 2 ^ Z.of_nat (S d) = 2 * 2 ^ Z.of_nat d).
    { rewrite Nat2Z.inj_succ, Z.pow_succ_r by lia. reflexivity. }
    destruct (Z_lt_dec s (lo + 2 ^ Z.of_nat d)) as [Hlt|Hge].
    + apply (IH lo H1). lia.
    + apply (IH _ H2). lia.
Qed.

Lemma whole_minutes_checked :
  Exhaust.all_from 11 0 (fun m => Exhaust.nearest_hundredth (60 * m)) = true.
Proof. vm_cast_no_check (eq_refl true). Qed.

(** X11. For a check-in and a check-out a whole number of minutes apart,
    up to 24 hours, the work hours that [calculate_work_hours] stores
    are a hundredth of an hour nearest to the exact quotient: they differ
    from minutes / 60 by at most 0.005, floating point included. *)
Theorem whole_minutes_work_hours (r : EmpApps.AttendanceRecord) (ci co m : Z) :
  EmpApps.check_in_time r = Some ci ->
  EmpApps.check_out_time r = Some co ->
  co - ci = minutes m ->
  0 <= m <= 1440 ->
  exists w, EmpApps.work_hours (fst (EmpApps.calculate_work_hours r)) = Some w /\
            snd (EmpApps.calculate_work_hours r) = w /\
            Z.abs (36 * w - 60 * m) <= 18.
Proof.
  intros Hci Hco Hm Hrange.
  unfold EmpApps.calculate_work_hours. rewrite Hci, Hco. simpl.
  eexists. split; [reflexivity|]. split; [reflexivity|].
  rewrite Hm.
  replace (minutes m) with (60 * m * usec_per_second)
    by (unfold minutes, usec_per_minute; lia).
  pose proof (all_from_spec 11 (fun m => Exhaust.nearest_hundredth (60 * m)) 0
                whole_minutes_checked m) as H.
  unfold Exhaust.nearest_hundredth in H. apply Z.leb_le. apply H.
  change (2 ^ Z.of_nat 11) with 2048. lia.
Qed.

Lemma whole_minutes_work_hours_witness :
  exists w,
    EmpApps.work_hours
      (fst (EmpApps.calculate_work_hours
              (EmpApps.mkAttendanceRecord (Some (Sample.at_time 9 0 0))
                 (Some (Sample.at_time 17 25 0)) "present" None ""))) = Some w /\
    snd (EmpApps.calculate_work_hours
           (EmpApps.mkAttendanceRecord (Some (Sample.at_time 9 0 0))
              (Some (Sample.at_time 17 25 0)) "present" None "")) = w /\
    Z.abs (36 * w - 60 * 505) <= 18.
Proof.
  apply (whole_minutes_work_hours _ (Sample.at_time 9 0 0) (Sample.at_time 17 25 0) 505).
  - reflexivity.
  - reflexivity.
  - vm_compute. reflexivity.
  - lia.
Defined.

(** ** Counting rows *)

Lemma size_filter_insert `{Countable K} {A} (P : K * A -> Prop) `{!forall kv, Decision (P kv)}
    (m : gmap K A) (i : K) (x : A) :
  m !! i = None ->
  size (filter P (<[i:=x]> m))
  = ((if decide (P (i, x)) then 1 else 0) + size (filter P m))%nat.
Proof.
  intros Hi. rewrite map_filter_insert. case_decide.
  - rewrite map_size_insert_None; [reflexivity|].
    apply map_lookup_filter_None. left. exact Hi.
  - rewrite delete_id by exact Hi. reflexivity.
Qed.

Lemma size_filter_le `{Countable K} {A} (P : K * A -> Prop) `{!forall kv, Decision (P kv)}
    (m : gmap K A) :
  (size (filter P m) <= size m)%nat.
Proof. apply map_subseteq_size, map_filter_subseteq. Qed.

Lemma size_filter_mono `{Countable K} {A} (P Q : K * A -> Prop)
    `{!forall kv, Decision (P kv)} `{!forall kv, Decision (Q kv)} (m : gmap K A) :
  (forall kv, P kv -> Q kv) ->
  (size (filter P m) <= size (filter Q m))%nat.
Proof.
  intros HPQ. induction m as [|i x m Hi IH] using map_ind.
  - rewrite !map_filter_empty. reflexivity.
  - rewrite !size_filter_insert by exact Hi.
    destruct (decide (P (i, x))) as [HP|HP]; destruct (decide (Q (i, x))) as [HQ|HQ];
      try lia. exfalso. apply HQ, HPQ, HP.
Qed.

Lemma size_filter_apart `{Countable K} {A} (P Q : K * A -> Prop)
    `{!forall kv, Decision (P kv)} `{!forall kv, Decision (Q kv)} (m : gmap K A) :
  (forall kv, P kv -> Q kv -> False) ->
  (size (filter P m) + size (filter Q m) <= size m)%nat.
Proof.
  intros HPQ. induction m as [|i x m Hi IH] using map_ind.
  - rewrite !map_filter_empty, map_size_empty. reflexivity.
  - rewrite !size_filter_insert by exact Hi. rewrite map_size_insert_None by exact Hi.
    destruct (decide (P (i, x))) as [HP|HP]; destruct (decide (Q (i, x))) as [HQ|HQ];
      try lia. exfalso. exact (HPQ _ HP HQ).
Qed.

Lemma size_filter_cover `{Countable K} {A} (P Q : K * A -> Prop)
    `{!forall kv, Decision (P kv)} `{!forall kv, Decision (Q kv)} (m : gmap K A) :
  (forall kv, P kv -> Q kv -> False) ->
  (forall i x, m !! i = Some x -> P (i, x) \/ Q (i, x)) ->
  (size (filter P m) + size (filter Q m) = size m)%nat.
Proof.
  intros HPQ. induction m as [|i x m Hi IH] using map_ind; intros Hall.
  - rewrite !map_filter_empty, map_size_empty. reflexivity.
  - rewrite !size_filter_insert by exact Hi. rewrite map_size_insert_None by exact Hi.
    assert (Hm : (size (filter P m) + size (filter Q m) = size m)%nat).
    { apply IH. intros j y Hj. apply Hall. rewrite lookup_insert_ne; [exact Hj|].
      intros ->. congruence. }
    destruct (Hall i x) as [HP|HQ]; [apply lookup_insert_eq| |].
    + rewrite (decide_True (P:=P (i, x))) by exact HP.
      rewrite (decide_False (P:=Q (i, x))); [lia|]. intros HQ. exact (HPQ _ HP HQ).
    + rewrite (decide_True (P:=Q (i, x))) by exact HQ.
      rewrite (decide_False (P:=P (i, x))); [lia|]. intros HP. exact (HPQ _ HP HQ).
Qed.

(** A map whose keys go to different members of a set has no more rows
    than the set has members. *)
Lemma size_le_image `{Countable K} `{Countable B} {A} (f : K -> B) (m : gmap K A) :
  forall S : gset B,
    (forall i j x y, m !! i = Some x -> m !! j = Some y -> f i = f j -> i = j) ->
    (forall i x, m !! i = Some x -> f i ∈ S) ->
    (size m <= size S)%nat.
Proof.
  induction m as [|i x m Hi IH] using map_ind; intros S Hinj Hin.
  - rewrite map_size_empty. lia.
  - rewrite map_size_insert_None by exact Hi.
    assert (HiS : f i ∈ S) by (apply (Hin i x), lookup_insert_eq).
    assert (Hsub : (size m <= size (S ∖ {[f i]}))%nat).
    { apply IH.
      - intros j1 j2 y1 y2 H1 H2. apply (Hinj j1 j2 y1 y2);
          (rewrite lookup_insert_ne; [assumption|intros ->; congruence]).
      - intros j y Hj. apply elem_of_difference. split.
        + apply (Hin j y). rewrite lookup_insert_ne; [exact Hj|]. intros ->. congruence.
        + rewrite elem_of_singleton. intros Hf.
          assert (j = i).
          { apply (Hinj j i y x); [|apply lookup_insert_eq|exact Hf].
            rewrite lookup_insert_ne; [exact Hj|]. intros ->. congruence. }
          subst j. congruence. }
    rewrite size_difference in Hsub by (apply singleton_subseteq_l; exact HiS).
    rewrite size_singleton in Hsub.
    assert (size S <> 0%nat).
    { intros Hzero. apply size_empty_inv in Hzero. set_solver. }
    lia.
Qed.

Lemma in_range_rows (e : Z) (start_date end_date : date) (db : EmpApps.table)
    (key : Z * date) (r : EmpApps.AttendanceRecord) :
  Site.in_range e start_date end_date db !! key = Some r <->
  db !! key = Some r /\ key.1 = e /\ start_date <= key.2 <= end_date.
Proof. unfold Site.in_range. rewrite map_lookup_filter_Some. simpl. tauto. Qed.

Lemma in_range_size (e : Z) (start_date end_date : date) (db : EmpApps.table) :
  start_date <= end_date ->
  Z.of_nat (size (Site.in_range e start_date end_date db)) <= end_date - start_date + 1.
Proof.
  intros Hle.
  pose proof (size_le_image (snd : Z * date -> date)
                (Site.in_range e start_date end_date db)
                (list_to_set (seqZ start_date (end_date - start_date + 1)))) as H.
  rewrite size_list_to_set, length_seqZ in H by apply NoDup_seqZ.
  assert (Hs : (size (Site.in_range e start_date end_date db)
                <= Z.to_nat (end_date - start_date + 1))%nat).
  { apply H.
    - intros [e1 d1] [e2 d2] x y H1 H2 Hd. simpl in Hd.
      apply in_range_rows in H1 as (_ & E1 & _). apply in_range_rows in H2 as (_ & E2 & _).
      simpl in *. congruence.
    - intros [e1 d1] x H1. apply in_range_rows in H1 as (_ & _ & Hd). simpl in *.
      apply elem_of_list_to_set, elem_of_seqZ. lia. }
  lia.
Qed.

(** X12. In the statistics of [attendance_history] for a period that
    does not end before it starts, the late days are among the present
    days, and present and absent days together are no more than the days
    of the period: an employee has one record a day. *)
Theorem attendance_history_counts (e : Z) (start_date end_date : date) (db : EmpApps.table) :
  start_date <= end_date ->
  0 <= Site.late_days (Site.attendance_history e start_date end_date db)
    <= Site.present_days (Site.attendance_history e start_date end_date db) /\
  Site.present_days (Site.attendance_history e start_date end_date db)
  + Site.absent_days (Site.attendance_history e start_date end_date db)
    <= Site.total_days (Site.attendance_history e start_date end_date db).
Proof.
  intros Hle. unfold Site.attendance_history, Site.count_status. simpl.
  pose proof (in_range_size e start_date end_date db Hle) as Hsize.
  set (m := Site.in_range e start_date end_date db) in *.
  pose proof (size_filter_mono
                (λ kv : Z * date * EmpApps.AttendanceRecord, EmpApps.status kv.2 ∈ ["late"])
                (λ kv, EmpApps.status kv.2 ∈ ["present"; "late"]) m) as Hmono.
  pose proof (size_filter_apart
                (λ kv : Z * date * EmpApps.AttendanceRecord,
                   EmpApps.status kv.2 ∈ ["present"; "late"])
                (λ kv, EmpApps.status kv.2 ∈ ["absent"]) m) as Hapart.
  split.
  - split; [lia|]. apply inj_le, Hmono. intros kv Hl.
    apply list_elem_of_singleton in Hl. rewrite Hl.
    apply elem_of_cons. right. apply list_elem_of_singleton. reflexivity.
  - assert ((size (filter (λ kv : Z * date * EmpApps.AttendanceRecord,
                             EmpApps.status kv.2 ∈ ["present"; "late"]) m)
             + size (filter (λ kv : Z * date * EmpApps.AttendanceRecord,
                               EmpApps.status kv.2 ∈ ["absent"]) m)
             <= size m)%nat) as Hsum.
    { apply Hapart. intros kv H1 H2.
      apply list_elem_of_singleton in H2. rewrite H2 in H1.
      apply elem_of_cons in H1 as [H1|H1]; [discriminate|].
      apply list_elem_of_singleton in H1. discriminate. }
    lia.
Qed.

Lemma attendance_history_counts_witness :
  0 <= Site.late_days (Site.attendance_history 1 Sample.day (Sample.day + 6)
                         {[ (1, Sample.day) := Sample.checked_in 9 5 0 "late" ]})
    <= Site.present_days (Site.attendance_history 1 Sample.day (Sample.day + 6)
                            {[ (1, Sample.day) := Sample.checked_in 9 5 0 "late" ]}) /\
  Site.present_days (Site.attendance_history 1 Sample.day (Sample.day + 6)
                       {[ (1, Sample.day) := Sample.checked_in 9 5 0 "late" ]})
  + Site.absent_days (Site.attendance_history 1 Sample.day (Sample.day + 6)
                        {[ (1, Sample.day) := Sample.checked_in 9 5 0 "late" ]})
    <= Site.total_days (Site.attendance_history 1 Sample.day (Sample.day + 6)
                          {[ (1, Sample.day) := Sample.checked_in 9 5 0 "late" ]}).
Proof.
  apply (attendance_history_counts 1 Sample.day (Sample.day + 6)
           {[ (1, Sample.day) := Sample.checked_in 9 5 0 "late" ]}).
  unfold Sample.day. lia.
Defined.

(** X13. Over a table that the dashboard and the views built, every
    record of the period is counted as present or as absent: the two
    counts of [attendance_history] add up to the number of records. *)
Theorem attendance_history_covers (utcoffset : Z) (settings : EmpApps.AttendanceSettings)
    (e : Z) (start_date end_date : date) (db : EmpApps.table) :
  Site.reachable utcoffset settings db ->
  Site.present_days (Site.attendance_history e start_date end_date db)
  + Site.absent_days (Site.attendance_history e start_date end_date db)
  = Z.of_nat (size (Site.in_range e start_date end_date db)).
Proof.
  intros Hreach. unfold Site.attendance_history, Site.count_status. simpl.
  rewrite <- Nat2Z.inj_add. f_equal.
  apply size_filter_cover.
  - intros kv H1 H2.
    apply list_elem_of_singleton in H2. rewrite H2 in H1.
    apply elem_of_cons in H1 as [H1|H1]; [discriminate|].
    apply list_elem_of_singleton in H1. discriminate.
  - intros key r Hrow. apply in_range_rows in Hrow as (Hrow & _).
    pose proof (site_rows_well_formed _ _ _ Hreach _ _ Hrow) as Hwf.
    unfold Site.well_formed, Site.status_at in Hwf. simpl.
    destruct (EmpApps.check_in_time r) as [ci|].
    + left. destruct Hwf as [-> _]. apply elem_of_cons.
      destruct (_ <? _); [right; apply list_elem_of_singleton|left]; reflexivity.
    + right. destruct Hwf as [-> _]. apply list_elem_of_singleton. reflexivity.
Qed.

Lemma attendance_history_covers_witness :
  Site.present_days
    (Site.attendance_history 1 Sample.day Sample.day
       (snd (EmpApps.check_in 0 EmpApps.default_settings (Sample.post 9 5 0) ∅)))
  + Site.absent_days
      (Site.attendance_history 1 Sample.day Sample.day
         (snd (EmpApps.check_in 0 EmpApps.default_settings (Sample.post 9 5 0) ∅)))
  = Z.of_nat (size (Site.in_range 1 Sample.day Sample.day
                      (snd (EmpApps.check_in 0 EmpApps.default_settings
                              (Sample.post 9 5 0) ∅)))).
Proof.
  apply (attendance_history_covers 0 EmpApps.default_settings).
  apply Site.reach_check_in, Site.reach_empty.
Defined.

(** X14. In [hr_dashboard], when every attendance row belongs to an
    employee of the table (the foreign key), the present count is at
    most the number of employees, so the absent count is never
    negative. *)
Theorem hr_absent_count_not_negative (employees : gmap Z Dashboards.Employee)
    (today : date) (db : EmpAttd.table) :
  Dashboards.references employees db ->
  0 <= Dashboards.present_count (Dashboards.hr_counts employees today db)
    <= Z.of_nat (size employees) /\
  0 <= Dashboards.absent_count (Dashboards.hr_counts employees today db).
Proof.
  intros Href. unfold Dashboards.hr_counts. simpl.
  set (day_rows := filter (λ kv : Z * date * EmpAttd.Attendance, kv.1.2 = today) db).
  assert (Hday : (size day_rows <= size employees)%nat).
  { rewrite <- (size_dom (D:=gset Z) employees).
    apply (size_le_image (fst : Z * date -> Z)).
    - intros [e1 d1] [e2 d2] x y H1 H2 He. simpl in He.
      apply map_lookup_filter_Some in H1 as [_ E1].
      apply map_lookup_filter_Some in H2 as [_ E2]. simpl in *. congruence.
    - intros [e1 d1] x H1. apply map_lookup_filter_Some in H1 as [H1 _].
      apply elem_of_dom. exact (Href _ _ H1). }
  pose proof (size_filter_le
                (λ kv : Z * date * EmpAttd.Attendance,
                   EmpAttd.status kv.2 ∈ ["present"; "late"]) day_rows) as Hle.
  lia.
Qed.

Lemma hr_absent_count_not_negative_witness :
  0 <= Dashboards.present_count
         (Dashboards.hr_counts {[ 1 := Dashboards.mkEmployee "staff" "it" true ]} Sample.day
            {[ (1, Sample.day) := Sample.checked_in_local 8 0 0 ]})
    <= Z.of_nat (size ({[ 1 := Dashboards.mkEmployee "staff" "it" true ]}
                        : gmap Z Dashboards.Employee)) /\
  0 <= Dashboards.absent_count
         (Dashboards.hr_counts {[ 1 := Dashboards.mkEmployee "staff" "it" true ]} Sample.day
            {[ (1, Sample.day) := Sample.checked_in_local 8 0 0 ]}).
Proof.
  apply (hr_absent_count_not_negative {[ 1 := Dashboards.mkEmployee "staff" "it" true ]}
           Sample.day {[ (1, Sample.day) := Sample.checked_in_local 8 0 0 ]}).
  intros key r Hrow. apply lookup_singleton_Some in Hrow as [<- _].
  simpl. rewrite lookup_singleton_eq. eauto.
Defined.

(** ** The dashboard and the views *)

(** X15. A visit of the dashboard of emp_apps never changes the answer
    of a later check-in, and changes the answer of a later check-out in
    one case only: where the day had no row, the refusal [NoRecord]
    becomes [NotCheckedIn], because the visit has created the row. *)
Theorem dashboard_then_views (utcoffset : Z) (settings : EmpApps.AttendanceSettings)
    (visit req : Request datetime) (db : EmpApps.table) :
  fst (EmpApps.check_in utcoffset settings req (snd (Site.attendance_dashboard visit db)))
  = fst (EmpApps.check_in utcoffset settings req db) /\
  (fst (EmpApps.check_out utcoffset settings req (snd (Site.attendance_dashboard visit db)))
   = fst (EmpApps.check_out utcoffset settings req db) \/
   (fst (EmpApps.check_out utcoffset settings req db) = EmpApps.Failed NoRecord /\
    fst (EmpApps.check_out utcoffset settings req (snd (Site.attendance_dashboard visit db)))
    = EmpApps.Failed NotCheckedIn)).
Proof.
  unfold Site.attendance_dashboard.
  destruct (employee visit) as [v|]; [|simpl; auto].
  unfold EmpApps.get_or_create.
  destruct (db !! (v, today visit)) as [r0|] eqn:Hv; simpl; [auto|].
  split.
  - unfold EmpApps.check_in, EmpApps.check_in_fetch.
    destruct (is_post req); [|reflexivity]. simpl.
    destruct (employee req) as [e|]; [|reflexivity].
    destruct (EmpApps.is_check_in_allowed settings (now req)); [|reflexivity]. simpl.
    unfold EmpApps.get_or_create.
    destruct (decide ((v, today visit) = (e, today req))) as [<-|Hne].
    + rewrite lookup_insert_eq, Hv. simpl. reflexivity.
    + rewrite lookup_insert_ne by exact Hne.
      destruct (db !! (e, today req)) as [r|]; simpl; [|reflexivity].
      unfold EmpApps.check_in_update.
      destruct (truthy (EmpApps.check_in_time r)); reflexivity.
  - unfold EmpApps.check_out.
    destruct (is_post req); [|auto]. simpl.
    destruct (employee req) as [e|]; [|auto].
    destruct (EmpApps.is_check_out_allowed settings (now req)); [|auto]. simpl.
    destruct (decide ((v, today visit) = (e, today req))) as [<-|Hne].
    + rewrite lookup_insert_eq, Hv. simpl. auto.
    + rewrite lookup_insert_ne by exact Hne. left.
      destruct (db !! (e, today req)) as [r|]; [|reflexivity].
      destruct (EmpApps.check_in_time r) as [ci|]; [|reflexivity].
      destruct (truthy (EmpApps.check_out_time r)); [reflexivity|].
      destruct (_ <? _); [reflexivity|].
      destruct (EmpApps.calculate_work_hours _) as [r2 hours]. reflexivity.
Qed.

(** ** The record generator *)

Lemma weekday_range (d : date) : 0 <= Generator.weekday d < 7.
Proof. unfold Generator.weekday. apply Z.mod_pos_bound. lia. Qed.

(** X16. The generator gives a record one of the four statuses of
    [ATTENDANCE_STATUS] exactly on the days from Monday to Friday; on a
    Saturday or a Sunday the status is 'holiday', which is none of
    them. *)
Theorem generated_status_in_choices (utcoffset : Z) (current_date : date)
    (w : Generator.Draw) :
  EmpApps.status (Generator.generate_attendance_record utcoffset current_date w)
    ∈ Generator.ATTENDANCE_STATUS
  <-> Generator.weekday current_date < 5.
Proof.
  unfold Generator.generate_attendance_record, Generator.ATTENDANCE_STATUS.
  destruct (5 <=? Generator.weekday current_date) eqn:Hw.
  - apply Z.leb_le in Hw. simpl. split; [|lia].
    intros Hin. exfalso.
    repeat (apply elem_of_cons in Hin as [Hin|Hin]; [discriminate|]).
    inversion Hin.
  - apply Z.leb_gt in Hw. split; [intros _; exact Hw|]. intros _.
    destruct (PrimFloat.ltb _ _); [|destruct (PrimFloat.ltb _ _)]; simpl.
    + apply elem_of_cons. right. apply elem_of_cons. left. reflexivity.
    + do 2 (apply elem_of_cons; right). apply elem_of_cons. left. reflexivity.
    + apply elem_of_cons. left. reflexivity.
Qed.

Lemma before_save_stamped (utcoffset utcoffset' : Z) (current_date : date)
    (m_in m_out : Z) (st : string) :
  st <> "absent" ->
  EmpApps.before_save utcoffset' (Generator.stamped utcoffset current_date m_in m_out st)
  = Generator.stamped utcoffset current_date m_in m_out st.
Proof.
  intros Hst. unfold EmpApps.before_save, Generator.stamped. simpl.
  rewrite bool_decide_eq_false_2 by exact Hst. reflexivity.
Qed.

(** X17. The generator writes its records with [bulk_create], which does
    not run [save]; nothing is lost by that: what [save] does to an
    instance before writing it leaves every generated record as it is,
    work hours and status included. *)
Theorem generated_record_saved_as_is (utcoffset utcoffset' : Z) (current_date : date)
    (w : Generator.Draw) :
  EmpApps.before_save utcoffset'
    (Generator.generate_attendance_record utcoffset current_date w)
  = Generator.generate_attendance_record utcoffset current_date w.
Proof.
  unfold Generator.generate_attendance_record.
  destruct (5 <=? Generator.weekday current_date); [reflexivity|].
  destruct (PrimFloat.ltb _ _); [reflexivity|].
  destruct (PrimFloat.ltb _ _); apply before_save_stamped; discriminate.
Qed.

Lemma stamped_is_late (utcoffset : Z) (current_date : date) (m_in m_out : Z) (st : string) :
  -15 <= m_in <= 90 ->
  0 <= mk_time 8 45 - utcoffset ->
  mk_time 10 30 - utcoffset < usec_per_day ->
  EmpApps.is_late utcoffset (Generator.stamped utcoffset current_date m_in m_out st)
    (mk_time 9 0)
  = (0 <? m_in).
Proof.
  intros Hm Hz1 Hz2.
  rewrite (is_late_time_of utcoffset
             (Generator.stamped utcoffset current_date m_in m_out st) (mk_time 9 0)
             (make_aware utcoffset (combine current_date (mk_time 9 0) + minutes m_in))
             eq_refl).
  assert (Htime :
    time_of (make_aware utcoffset (combine current_date (mk_time 9 0) + minutes m_in))
    = mk_time 9 0 + minutes m_in - utcoffset).
  { unfold time_of, make_aware, combine.
    replace (current_date * usec_per_day + mk_time 9 0 + minutes m_in - utcoffset)
      with ((mk_time 9 0 + minutes m_in - utcoffset) + current_date * usec_per_day) by lia.
    rewrite Z.mod_add by discriminate. apply Z.mod_small.
    revert Hz1 Hz2.
    unfold mk_time, minutes, usec_per_day, usec_per_hour, usec_per_minute, usec_per_second.
    lia. }
  rewrite Htime.
  destruct (0 <? m_in) eqn:H0.
  - apply Z.ltb_lt in H0. apply Z.ltb_lt.
    unfold minutes, usec_per_minute, usec_per_second. lia.
  - apply Z.ltb_ge in H0. apply Z.ltb_ge.
    unfold minutes, usec_per_minute, usec_per_second. lia.
Qed.

(** X18. For draws in their ranges, in a time zone where 08:45 and 10:30
    of the wall clock fall on the UTC date of the record, a generated
    record with stamps has its check-out at least six and a half hours
    after its check-in; one generated as 'late' is late for [is_late()],
    and one generated as 'present' is late for [is_late()] exactly when
    its check-in is after 09:00: the generator allows fifteen minutes
    that [is_late] does not. *)
Theorem generated_against_is_late (utcoffset : Z) (current_date : date)
    (w : Generator.Draw) (ci co : datetime) :
  Generator.in_ranges w ->
  0 <= mk_time 8 45 - utcoffset ->
  mk_time 10 30 - utcoffset < usec_per_day ->
  EmpApps.check_in_time (Generator.generate_attendance_record utcoffset current_date w)
  = Some ci ->
  EmpApps.check_out_time (Generator.generate_attendance_record utcoffset current_date w)
  = Some co ->
  minutes 390 <= co - ci /\
  (EmpApps.status (Generator.generate_attendance_record utcoffset current_date w) = "late" ->
   EmpApps.is_late utcoffset
     (Generator.generate_attendance_record utcoffset current_date w) (mk_time 9 0) = true) /\
  (EmpApps.status (Generator.generate_attendance_record utcoffset current_date w) = "present" ->
   (EmpApps.is_late utcoffset
      (Generator.generate_attendance_record utcoffset current_date w) (mk_time 9 0) = true
    <-> 0 < Generator.check_in_minutes w)).
Proof.
  intros (Hl & Hi & Ho) Hz1 Hz2.
  unfold Generator.generate_attendance_record.
  destruct (5 <=? Generator.weekday current_date); [discriminate|].
  destruct (PrimFloat.ltb _ _); [discriminate|].
  destruct (PrimFloat.ltb _ _); rewrite stamped_is_late by (assumption || lia);
    cbn [Generator.stamped EmpApps.check_in_time EmpApps.check_out_time EmpApps.status];
    intros [= <-] [= <-].
  - split.
    { unfold make_aware, combine, mk_time, minutes, usec_per_hour, usec_per_minute,
        usec_per_second. lia. }
    split; [|discriminate]. intros _. apply Z.ltb_lt. lia.
  - split.
    { unfold make_aware, combine, mk_time, minutes, usec_per_hour, usec_per_minute,
        usec_per_second. lia. }
    split; [discriminate|]. intros _. apply Z.ltb_lt.
Qed.

Lemma generated_against_is_late_witness :
  minutes 390
    <= combine Sample.day (mk_time 17 0) + minutes 30
       - (combine Sample.day (mk_time 9 0) + minutes 10) /\
  (EmpApps.status
     (Generator.generate_attendance_record 0 Sample.day
        (Generator.mkDraw 0.5%float 20 10 30)) = "late" ->
   EmpApps.is_late 0
     (Generator.generate_attendance_record 0 Sample.day
        (Generator.mkDraw 0.5%float 20 10 30)) (mk_time 9 0) = true) /\
  (EmpApps.status
     (Generator.generate_attendance_record 0 Sample.day
        (Generator.mkDraw 0.5%float 20 10 30)) = "present" ->
   (EmpApps.is_late 0
      (Generator.generate_attendance_record 0 Sample.day
         (Generator.mkDraw 0.5%float 20 10 30)) (mk_time 9 0) = true
    <-> 0 < Generator.check_in_minutes (Generator.mkDraw 0.5%float 20 10 30))).
Proof.
  apply (generated_against_is_late 0 Sample.day (Generator.mkDraw 0.5%float 20 10 30)).
  - unfold Generator.in_ranges. simpl. lia.
  - vm_compute. discriminate.
  - vm_compute. reflexivity.
  - vm_compute. reflexivity.
  - vm_compute. reflexivity.
Defined.

(** ** Leave decisions *)

(** X20. Leave decisions have no order: a decision posted by a staff
    member on a request replaces whatever an earlier request, by staff or
    not, had left on the same id, so the reply and the table after the
    two requests are those after the second alone. *)
Theorem last_leave_decision_wins (first_staff first_post : bool) (user1 user2 : Z)
    (time1 time2 : datetime) (leave_id : Z) (st1 st2 comments1 comments2 : string)
    (leaves : gmap Z Site.LeaveRequest) :
  Site.admin_update_leave_status true true user2 time2 leave_id st2 comments2
    (snd (Site.admin_update_leave_status first_staff first_post user1 time1 leave_id
            st1 comments1 leaves))
  = Site.admin_update_leave_status true true user2 time2 leave_id st2 comments2 leaves.
Proof.
  unfold Site.admin_update_leave_status.
  destruct first_staff; simpl; [|reflexivity].
  destruct first_post; simpl; [|reflexivity].
  destruct (leaves !! leave_id) as [l|] eqn:Hl; simpl.
  - rewrite lookup_insert_eq. simpl. rewrite insert_insert_eq. reflexivity.
  - rewrite Hl. reflexivity.
Qed.

(** ** The row after a race *)

Lemma step_stores_a_request (utcoffset : Z) (settings : EmpApps.AttendanceSettings)
    (req : Request datetime) (e : Z) (t1 t2 : datetime) (h : Race.Handler)
    (db : EmpApps.table) :
  is_post req = true ->
  employee req = Some e ->
  now req = t1 \/ now req = t2 ->
  (h = Race.Received req \/ (exists r, h = Race.Fetched (now req) (e, today req) r) \/
   exists resp, h = Race.Replied resp) ->
  let h' := fst (Race.step utcoffset settings h db) in
  let db' := snd (Race.step utcoffset settings h db) in
  (h' = Race.Received req \/ (exists r, h' = Race.Fetched (now req) (e, today req) r) \/
   exists resp, h' = Race.Replied resp) /\
  ((exists r, db !! (e, today req) = Some r /\
      (EmpApps.check_in_time r = Some t1 \/ EmpApps.check_in_time r = Some t2)) \/
   (Race.succeeded h = false /\ Race.succeeded h' = true) ->
   exists r, db' !! (e, today req) = Some r /\
     (EmpApps.check_in_time r = Some t1 \/ EmpApps.check_in_time r = Some t2)).
Proof.
  intros Hpost He Ht [->|[(r0 & ->)|(resp & ->)]]; simpl.
  - unfold EmpApps.check_in_fetch. rewrite Hpost, He. simpl.
    destruct (EmpApps.is_check_in_allowed settings (now req)); simpl.
    + unfold EmpApps.get_or_create.
      destruct (db !! (e, today req)) as [r|] eqn:Hrow; simpl.
      * split; [eauto|]. intros [H|[_ H]]; [rewrite Hrow; exact H|discriminate].
      * split; [eauto|]. intros [(r & H & _)|[_ H]]; discriminate.
    + split; [eauto|]. intros [H|[_ H]]; [exact H|discriminate].
  - unfold EmpApps.check_in_update.
    destruct (truthy (EmpApps.check_in_time r0)); simpl.
    + split; [eauto|]. intros [H|[_ H]]; [exact H|discriminate].
    + split; [eauto|]. intros _. unfold EmpApps.save. simpl.
      eexists. rewrite lookup_insert_eq. split; [reflexivity|].
      match goal with |- context [EmpApps.before_save _ ?x] =>
        destruct (before_save_stamps utcoffset x) as [-> _] end.
      destruct (EmpApps.is_late _ _ _); simpl; destruct Ht as [<-|<-]; auto.
  - split; [eauto|]. intros [H|[H1 H2]]; [exact H|congruence].
Qed.

Lemma race_row_invariant (utcoffset : Z) (settings : EmpApps.AttendanceSettings)
    (req1 req2 : Request datetime) (e : Z) (schedule : list Race.Worker) :
  is_post req1 = true -> employee req1 = Some e ->
  is_post req2 = true -> employee req2 = Some e ->
  today req2 = today req1 ->
  forall (h1 h2 : Race.Handler) (db : EmpApps.table),
    (h1 = Race.Received req1 \/
     (exists r, h1 = Race.Fetched (now req1) (e, today req1) r) \/
     exists resp, h1 = Race.Replied resp) ->
    (h2 = Race.Received req2 \/
     (exists r, h2 = Race.Fetched (now req2) (e, today req1) r) \/
     exists resp, h2 = Race.Replied resp) ->
    (Race.succeeded h1 = true \/ Race.succeeded h2 = true ->
     exists r, db !! (e, today req1) = Some r /\
       (EmpApps.check_in_time r = Some (now req1) \/
        EmpApps.check_in_time r = Some (now req2))) ->
    forall (h1' h2' : Race.Handler) (db' : EmpApps.table),
      Race.run utcoffset settings schedule h1 h2 db = (h1', h2', db') ->
      Race.succeeded h1' = true \/ Race.succeeded h2' = true ->
      exists r, db' !! (e, today req1) = Some r /\
        (EmpApps.check_in_time r = Some (now req1) \/
         EmpApps.check_in_time r = Some (now req2)).
Proof.
  intros Hp1 He1 Hp2 He2 Hday.
  induction schedule as [|w rest IH]; intros h1 h2 db S1 S2 Hrow h1' h2' db' Hrun Hwin.
  - simpl in Hrun. injection Hrun as <- <- <-. auto.
  - destruct w; simpl in Hrun.
    + pose proof (step_stores_a_request utcoffset settings req1 e (now req1) (now req2)
                    h1 db Hp1 He1 (or_introl eq_refl) S1) as [S1' Hkeep].
      destruct (Race.step utcoffset settings h1 db) as [h1s dbs] eqn:Hstep. simpl in *.
      refine (IH h1s h2 dbs S1' S2 _ h1' h2' db' Hrun Hwin).
      intros Hs. apply Hkeep.
      destruct (Race.succeeded h1) eqn:Hb.
      * left. apply Hrow. auto.
      * destruct Hs as [Hs|Hs]; [right; auto|left; apply Hrow; auto].
    + rewrite <- Hday in S2.
      pose proof (step_stores_a_request utcoffset settings req2 e (now req1) (now req2)
                    h2 db Hp2 He2 (or_intror eq_refl) S2) as [S2' Hkeep].
      destruct (Race.step utcoffset settings h2 db) as [h2s dbs] eqn:Hstep. simpl in *.
      rewrite Hday in S2', Hkeep.
      refine (IH h1 h2s dbs S1 S2' _ h1' h2' db' Hrun Hwin).
      intros Hs. apply Hkeep.
      destruct (Race.succeeded h2) eqn:Hb.
      * left. apply Hrow. auto.
      * destruct Hs as [Hs|Hs]; [left; apply Hrow; auto|right; auto].
Qed.

(** X21. However the queries of two racing check-in requests interleave,
    once both have answered the row of the day exists and its check-in
    time is the moment of one of the two requests. *)
Theorem race_stores_a_request (utcoffset : Z) (settings : EmpApps.AttendanceSettings)
    (req1 req2 : Request datetime) (db : EmpApps.table) (e : Z)
    (schedule : list Race.Worker) (h1 h2 : Race.Handler) (db' : EmpApps.table) :
  Race.racing settings req1 req2 db e ->
  Race.run utcoffset settings schedule (Race.Received req1) (Race.Received req2) db
  = (h1, h2, db') ->
  Race.finished h1 = true ->
  Race.finished h2 = true ->
  exists r, db' !! (e, today req1) = Some r /\
    (EmpApps.check_in_time r = Some (now req1) \/ EmpApps.check_in_time r = Some (now req2)).
Proof.
  intros Hrace Hrun Hf1 Hf2.
  pose proof Hrace as (Hp1 & He1 & Hw1 & Hp2 & He2 & Hw2 & Hday & Hopen).
  assert (Hwin : Race.succeeded h1 = true \/ Race.succeeded h2 = true).
  { refine (race_some_winner utcoffset settings req1 req2 e schedule
              Hp1 He1 Hw1 Hp2 He2 Hw2 Hday
              (Race.Received req1) (Race.Received req2) db _ h1 h2 db' Hrun Hf1 Hf2).
    right; right. split; [left; reflexivity|]. split; [left; reflexivity|]. exact Hopen. }
  refine (race_row_invariant utcoffset settings req1 req2 e schedule Hp1 He1 Hp2 He2 Hday
            (Race.Received req1) (Race.Received req2) db _ _ _ h1 h2 db' Hrun Hwin).
  - left. reflexivity.
  - left. reflexivity.
  - intros [H|H]; discriminate.
Qed.

Lemma race_stores_a_request_witness :
  exists r,
    ({[ (1, Sample.day) := Sample.checked_in 8 30 1 "present" ]} : EmpApps.table)
      !! (1, today (Sample.post 8 30 0)) = Some r /\
    (EmpApps.check_in_time r = Some (now (Sample.post 8 30 0)) \/
     EmpApps.check_in_time r = Some (now (Sample.post 8 30 1))).
Proof.
  apply (race_stores_a_request 0 EmpApps.default_settings
           (Sample.post 8 30 0) (Sample.post 8 30 1) ∅ 1
           [Race.First; Race.Second; Race.First; Race.Second]
           (Race.Replied (EmpApps.CheckedIn (Sample.at_time 8 30 0) "present"))
           (Race.Replied (EmpApps.CheckedIn (Sample.at_time 8 30 1) "present"))
           {[ (1, Sample.day) := Sample.checked_in 8 30 1 "present" ]}).
  - repeat split; vm_compute; reflexivity.
  - vm_compute. reflexivity.
  - reflexivity.
  - reflexivity.
Defined.

(** ** Rows as the views of emp_attd leave them *)

Lemma attd_rows_well_formed (db : EmpAttd.table) :
  Attd.reachable db ->
  forall (key : Z * date) (r : EmpAttd.Attendance),
    db !! key = Some r -> Attd.well_formed r.
Proof.
  induction 1 as [|req db Hreach IH|req db Hreach IH]; intros key r Hrow.
  - rewrite lookup_empty in Hrow. discriminate.
  - revert Hrow. unfold EmpAttd.check_in.
    destruct (is_post req); [|apply IH]. simpl.
    destruct (employee req) as [e|]; [|apply IH].
    destruct ((mk_time 8 0 <=? now req) && (now req <=? mk_time 9 0)) eqn:Hwin;
      [|apply IH]. simpl.
    apply andb_true_iff in Hwin as [H8 H9]. apply Z.leb_le in H8, H9.
    assert (Hlate : (mk_time 9 15 <? now req) = false).
    { apply Z.ltb_ge. revert H9.
      unfold mk_time, usec_per_hour, usec_per_minute, usec_per_second. lia. }
    rewrite Hlate. unfold EmpAttd.get_or_create.
    destruct (db !! (e, today req)) as [r1|] eqn:Hrow1; simpl.
    + destruct (EmpAttd.check_in_time r1) as [t|] eqn:Hci; simpl; [apply IH|].
      destruct (decide ((e, today req) = key)) as [<-|Hne].
      * rewrite lookup_insert_eq. intros [= <-].
        pose proof (IH _ _ Hrow1) as ((ci & Hc & _) & _). congruence.
      * rewrite lookup_insert_ne by exact Hne. apply IH.
    + destruct (decide ((e, today req) = key)) as [<-|Hne].
      * rewrite lookup_insert_eq. intros [= <-].
        split; [exists (now req); split; [reflexivity|split; assumption]|].
        split; [reflexivity|]. split; [reflexivity|].
        intros co Hco. discriminate Hco.
      * rewrite lookup_insert_ne by exact Hne. apply IH.
  - revert Hrow. unfold EmpAttd.check_out.
    destruct (is_post req); [|apply IH]. simpl.
    destruct (employee req) as [e|]; [|apply IH].
    destruct ((mk_time 17 0 <=? now req) && (now req <=? mk_time 18 0)) eqn:Hwin;
      [|apply IH]. simpl.
    apply andb_true_iff in Hwin as [H17 H18]. apply Z.leb_le in H17, H18.
    destruct (db !! (e, today req)) as [r1|] eqn:Hrow1; [|apply IH].
    destruct (EmpAttd.check_in_time r1) as [ci|] eqn:Hci; [|apply IH].
    destruct (truthy (EmpAttd.check_out_time r1)); [apply IH|]. simpl.
    destruct (decide ((e, today req) = key)) as [<-|Hne].
    + rewrite lookup_insert_eq. intros [= <-].
      pose proof (IH _ _ Hrow1) as ((ci' & Hc & Hr) & Hst & Hl & _).
      split; [exists ci'; simpl; rewrite <- Hc, Hci; auto|].
      split; [exact Hst|]. split; [exact Hl|].
      simpl. intros co [= <-]. auto.
    + rewrite lookup_insert_ne by exact Hne. apply IH.
Qed.

(** X22. In every table that the two views of emp_attd build, a row has
    a check-in time between 08:00 and 09:00, the status 'present' and
    [is_late] false, and its check-out time, if any, lies between 17:00
    and 18:00, at least eight hours after the check-in: the windows do
    what the missing minimum would. *)
Theorem emp_attd_rows_eight_hours (db : EmpAttd.table) (key : Z * date)
    (r : EmpAttd.Attendance) :
  Attd.reachable db ->
  db !! key = Some r ->
  EmpAttd.status r = "present" /\ EmpAttd.is_late r = false /\
  exists ci, EmpAttd.check_in_time r = Some ci /\
    mk_time 8 0 <= ci <= mk_time 9 0 /\
    forall co, EmpAttd.check_out_time r = Some co ->
      mk_time 17 0 <= co <= mk_time 18 0 /\ minutes 480 <= co - ci.
Proof.
  intros Hreach Hrow.
  destruct (attd_rows_well_formed db Hreach key r Hrow) as ((ci & Hci & Hr) & Hst & Hl & Hco).
  split; [exact Hst|]. split; [exact Hl|].
  exists ci. split; [exact Hci|]. split; [exact Hr|].
  intros co Hc. pose proof (Hco co Hc) as Hw. split; [exact Hw|].
  revert Hr Hw. unfold mk_time, minutes, usec_per_hour, usec_per_minute, usec_per_second. lia.
Qed.

Lemma emp_attd_rows_eight_hours_witness :
  EmpAttd.status (EmpAttd.mkAttendance (Some (mk_time 8 30)) None "present" false None)
  = "present" /\
  EmpAttd.is_late (EmpAttd.mkAttendance (Some (mk_time 8 30)) None "present" false None)
  = false /\
  exists ci,
    EmpAttd.check_in_time
      (EmpAttd.mkAttendance (Some (mk_time 8 30)) None "present" false None) = Some ci /\
    mk_time 8 0 <= ci <= mk_time 9 0 /\
    forall co,
      EmpAttd.check_out_time
        (EmpAttd.mkAttendance (Some (mk_time 8 30)) None "present" false None) = Some co ->
      mk_time 17 0 <= co <= mk_time 18 0 /\ minutes 480 <= co - ci.
Proof.
  apply (emp_attd_rows_eight_hours (snd (EmpAttd.check_in (Sample.post_local 8 30 0) ∅))
           (1, Sample.day)).
  - apply Attd.reach_check_in, Attd.reach_empty.
  - vm_compute. reflexivity.
Defined.

(** X23. Over such a table the late count of [hr_dashboard] is zero and
    the present count is the number of rows of the day: every employee
    with a row counts as present, none as late. *)
Theorem hr_counts_of_reachable (employees : gmap Z Dashboards.Employee)
    (today : date) (db : EmpAttd.table) :
  Attd.reachable db ->
  Dashboards.late_count (Dashboards.hr_counts employees today db) = 0 /\
  Dashboards.present_count (Dashboards.hr_counts employees today db)
  = Z.of_nat (size (filter (λ kv : Z * date * EmpAttd.Attendance, kv.1.2 = today) db)).
Proof.
  intros Hreach. unfold Dashboards.hr_counts. simpl.
  set (day_rows := filter (λ kv : Z * date * EmpAttd.Attendance, kv.1.2 = today) db).
  assert (Hrows : forall key r, day_rows !! key = Some r -> Attd.well_formed r).
  { intros key r Hrow. apply map_lookup_filter_Some in Hrow as [Hrow _].
    exact (attd_rows_well_formed db Hreach key r Hrow). }
  split.
  - assert (Hempty : filter (λ kv : Z * date * EmpAttd.Attendance,
                               EmpAttd.is_late kv.2 = true) day_rows = ∅).
    { apply map_empty. intros key. apply map_lookup_filter_None. right.
      intros r Hrow Hl. simpl in Hl.
      destruct (Hrows key r Hrow) as (_ & _ & Hf & _). congruence. }
    rewrite Hempty, map_size_empty. reflexivity.
  - f_equal. f_equal. apply map_filter_id.
    intros key r Hrow. simpl.
    destruct (Hrows key r Hrow) as (_ & -> & _).
    apply elem_of_cons. left. reflexivity.
Qed.

Lemma hr_counts_of_reachable_witness :
  Dashboards.late_count
    (Dashboards.hr_counts ∅ Sample.day
       (snd (EmpAttd.check_in (Sample.post_local 8 30 0) ∅))) = 0 /\
  Dashboards.present_count
    (Dashboards.hr_counts ∅ Sample.day
       (snd (EmpAttd.check_in (Sample.post_local 8 30 0) ∅)))
  = Z.of_nat (size (filter (λ kv : Z * date * EmpAttd.Attendance, kv.1.2 = Sample.day)
                      (snd (EmpAttd.check_in (Sample.post_local 8 30 0) ∅)))).
Proof.
  apply (hr_counts_of_reachable ∅ Sample.day).
  apply Attd.reach_check_in, Attd.reach_empty.
Defined.
